(** * Clockify -> Slack status synchronisation: a shallow embedding

    The repository holds two near-duplicate entry points:
    - [lambda_function.py], the scheduled-function variant (module [Lambda]);
    - [main.py], the standalone-script variant (module [Main]).

    Both fetch today's approved time-off requests from the time-tracking
    service, and for each record look the person up in the chat service and
    push a status with an expiration.

    The embedding keeps the source's control flow.  Python values that come out
    of JSON bodies are values of [pyval]; Python exceptions are values of
    [exn]; every function that prints, logs or talks to a service is a
    computation in the monad [M], which threads the trace of observable events
    and stops at the first exception.  The external services (and the clock)
    are the fields of a record [services]; theorems quantify over it. *)

From Stdlib Require Import ZArith List String Ascii Bool Lia.
Import ListNotations.

Local Open Scope string_scope.
Local Open Scope Z_scope.
Local Set Warnings "-register-all".

(** ** Python values and exceptions *)

(** The values [response.json()] can produce.  A float is kept as the dyadic
    number [m * 2^e].  A dict is the list of its items (keys are distinct;
    [dict_get] takes the first match). *)
Inductive pyval : Type :=
| PNone
| PBool (b : bool)
| PInt (z : Z)
| PFloat (m e : Z)
| PStr (s : string)
| PList (l : list pyval)
| PDict (d : list (string * pyval)).

Inductive exn : Type :=
| TypeError
| AttributeError
| KeyError
| ValueError
| OverflowError
| JSONDecodeError.

Inductive outcome (A : Type) : Type :=
| Ok (a : A)
| Raise (e : exn).
Arguments Ok {A} a.
Arguments Raise {A} e.

(** [bool(v)]: the truth value Python gives to [v] in [if v] and [not v]. *)
Definition truthy (v : pyval) : bool :=
  match v with
  | PNone => false
  | PBool b => b
  | PInt z => negb (z =? 0)
  | PFloat m _ => negb (m =? 0)
  | PStr s => negb (String.eqb s "")
  | PList l => match l with [] => false | _ => true end
  | PDict d => match d with [] => false | _ => true end
  end.

(** [hash(v)] succeeds on every JSON value but lists and dicts. *)
Definition hashable (v : pyval) : bool :=
  match v with
  | PList _ | PDict _ => false
  | _ => true
  end.

Fixpoint dict_get (d : list (string * pyval)) (k : string) : option pyval :=
  match d with
  | [] => None
  | (k', v) :: d' => if String.eqb k' k then Some v else dict_get d' k
  end.

(** [v.get(k, default)]: only a dict has the attribute [get]. *)
Definition py_get (v : pyval) (k : string) (default : pyval) : outcome pyval :=
  match v with
  | PDict d => Ok (match dict_get d k with Some x => x | None => default end)
  | _ => Raise AttributeError
  end.

(** [v[k]] for a string [k]: a missing key is a [KeyError]; a list or a
    string refuses a string index and the other values are not
    subscriptable, a [TypeError] either way. *)
Definition py_getitem (v : pyval) (k : string) : outcome pyval :=
  match v with
  | PDict d => match dict_get d k with Some x => Ok x | None => Raise KeyError end
  | _ => Raise TypeError
  end.

Fixpoint chars_of (s : string) : list pyval :=
  match s with
  | EmptyString => []
  | String c s' => PStr (String c EmptyString) :: chars_of s'
  end.

(** The sequence a [for] loop (or a comprehension) walks through. *)
Definition py_iter (v : pyval) : outcome (list pyval) :=
  match v with
  | PList l => Ok l
  | PDict d => Ok (map (fun kv => PStr (fst kv)) d)
  | PStr s => Ok (chars_of s)
  | _ => Raise TypeError
  end.

(** ** Binary64 arithmetic, as far as [datetime.timestamp] needs it

    A finite double is kept as a dyadic number [(m, e)], standing for
    [m * 2^e].  [round64 n d] is the double nearest to the rational [n / d]
    (ties to even), for [d > 0]; the magnitudes that occur here (between one
    microsecond and a few 10^11 seconds) are far from the subnormal and the
    overflow range, which are left out. *)
Definition round64_pos (n d : Z) : Z * Z :=
  let k0 := Z.log2 n - Z.log2 d in
  let below :=
    if 0 <=? k0 then n <? d * 2 ^ k0 else n * 2 ^ (- k0) <? d in
  let k := if below then k0 - 1 else k0 in
  let e := k - 52 in
  let num := if 0 <=? e then n else n * 2 ^ (- e) in
  let den := if 0 <=? e then d * 2 ^ e else d in
  let q := num / den in
  let r := num mod den in
  let up := (den <? 2 * r) || ((den =? 2 * r) && Z.odd q) in
  ((if up then q + 1 else q), e).

Definition round64 (n d : Z) : Z * Z :=
  if n =? 0 then (0, 0)
  else if 0 <? n then round64_pos n d
  else let '(m, e) := round64_pos (- n) d in (- m, e).

(** [x + y] on doubles: the exact sum, rounded once. *)
Definition float_add (x y : Z * Z) : Z * Z :=
  let '(mx, ex) := x in
  let '(my, ey) := y in
  let e := Z.min ex ey in
  let s := mx * 2 ^ (ex - e) + my * 2 ^ (ey - e) in
  if 0 <=? e then round64 (s * 2 ^ e) 1 else round64 s (2 ^ (- e)).

(** [int(x)] on a double truncates towards zero. *)
Definition int_of_float (x : Z * Z) : Z :=
  let '(m, e) := x in
  if 0 <=? e then m * 2 ^ e else Z.quot m (2 ^ (- e)).

(** ** Dates and times ([datetime]) *)

(** [tz] is the UTC offset of an aware datetime in microseconds, [None] for a
    naive one. *)
Record datetime : Type := mkDatetime {
  year : Z; month : Z; day : Z;
  hour : Z; minute : Z; second : Z; microsecond : Z;
  tz : option Z
}.

Definition is_leap (y : Z) : bool :=
  ((y mod 4 =? 0) && negb (y mod 100 =? 0)) || (y mod 400 =? 0).

Definition days_in_month (y m : Z) : Z :=
  if m =? 2 then (if is_leap y then 29 else 28)
  else if (m =? 4) || (m =? 6) || (m =? 9) || (m =? 11) then 30
  else 31.

Definition days_before_year (y : Z) : Z :=
  let p := y - 1 in p * 365 + p / 4 - p / 100 + p / 400.

Definition days_before_month (y m : Z) : Z :=
  nth (Z.to_nat (m - 1)) [0; 31; 59; 90; 120; 151; 181; 212; 243; 273; 304; 334] 0
  + (if (2 <? m) && is_leap y then 1 else 0).

(** [date.toordinal()]: 1 for 0001-01-01. *)
Definition ymd2ord (y m d : Z) : Z :=
  days_before_year y + days_before_month y m + d.

Definition day_us : Z := 86400 * 1000000.

(** The checks of the [datetime] and [timezone] constructors. *)
Definition valid_datetime (dt : datetime) : bool :=
  (1 <=? year dt) && (year dt <=? 9999)
  && (1 <=? month dt) && (month dt <=? 12)
  && (1 <=? day dt) && (day dt <=? days_in_month (year dt) (month dt))
  && (0 <=? hour dt) && (hour dt <=? 23)
  && (0 <=? minute dt) && (minute dt <=? 59)
  && (0 <=? second dt) && (second dt <=? 59)
  && (0 <=? microsecond dt) && (microsecond dt <=? 999999)
  && match tz dt with
     | None => true
     | Some off => (- day_us <? off) && (off <? day_us)
     end.

(** Microseconds from 1970-01-01T00:00:00 on the datetime's own wall clock. *)
Definition wall_us (dt : datetime) : Z :=
  ((ymd2ord (year dt) (month dt) (day dt) - 719163) * 86400
   + hour dt * 3600 + minute dt * 60 + second dt) * 1000000
  + microsecond dt.

(** Microseconds since the Unix epoch of an aware datetime. *)
Definition epoch_us (dt : datetime) (off : Z) : Z := wall_us dt - off.

(** [dt.timestamp()].  An aware datetime gives
    [(dt - EPOCH).total_seconds()], one correctly rounded division.  A naive
    one is read in the host's local time: [mktime] stands for the host's
    conversion of the fields (microseconds apart) to epoch seconds, [None]
    where the platform refuses the value; the fraction is then added as a
    double. *)
Definition timestamp (mktime : datetime -> option Z) (dt : datetime)
  : outcome (Z * Z) :=
  match tz dt with
  | Some off => Ok (round64 (epoch_us dt off) 1000000)
  | None =>
      match mktime dt with
      | Some s => Ok (float_add (round64 s 1) (round64 (microsecond dt) 1000000))
      | None => Raise OverflowError
      end
  end.

(** ** Strings: [str.replace], [int] on digits, zero-padded printing *)

(** [s.replace(c, by)] for a one-character [c]. *)
Fixpoint str_replace (c : ascii) (by_ : string) (s : string) : string :=
  match s with
  | EmptyString => EmptyString
  | String a s' =>
      if Ascii.eqb a c then by_ ++ str_replace c by_ s'
      else String a (str_replace c by_ s')
  end.

Definition digit_of (c : ascii) : option Z :=
  let n := Z.of_nat (nat_of_ascii c) in
  if (48 <=? n) && (n <=? 57) then Some (n - 48) else None.

Fixpoint int_of_digits (acc : Z) (s : string) : option Z :=
  match s with
  | EmptyString => Some acc
  | String c s' =>
      match digit_of c with
      | Some d => int_of_digits (acc * 10 + d) s'
      | None => None
      end
  end.

(** A field of exactly [width] decimal digits. *)
Definition parse_digits (width : nat) (s : string) : option Z :=
  if Nat.eqb (String.length s) width then int_of_digits 0 s else None.

Definition digit_char (d : Z) : ascii :=
  ascii_of_nat (Z.to_nat (48 + d mod 10)).

(** ["%0<width>d" % n], for [0 <= n < 10^width]. *)
Fixpoint zfill (width : nat) (n : Z) : string :=
  match width with
  | O => EmptyString
  | S w => zfill w (n / 10) ++ String (digit_char n) EmptyString
  end.

Definition char_at (s : string) (i : nat) (c : ascii) : bool :=
  match String.get i s with
  | Some a => Ascii.eqb a c
  | None => false
  end.

(** ** [datetime.fromisoformat] and [datetime.isoformat]

    [fromisoformat] is modelled on the grammar every CPython from 3.7 on
    accepts, the inverse of [isoformat]:
    [YYYY-MM-DD[*HH[:MM[:SS[.fff[fff]]]][+HH:MM[:SS[.ffffff]]]]], with any
    single character for [*].  Whatever is outside it is a [ValueError] here
    (later CPython versions read more of ISO 8601). *)

Definition opt_bind {A B : Type} (o : option A) (f : A -> option B) : option B :=
  match o with
  | Some a => f a
  | None => None
  end.

Notation "x <-? o ;; k" := (opt_bind o (fun x => k))
  (at level 61, o at next level, right associativity).
Notation "' p <-? o ;; k" := (opt_bind o (fun x => match x with p => k end))
  (at level 61, p pattern, o at next level, right associativity).

Definition parse_isoformat_date (dstr : string) : option (Z * Z * Z) :=
  y <-? parse_digits 4 (substring 0 4 dstr) ;;
  if negb (char_at dstr 4 "-") then None else
  m <-? parse_digits 2 (substring 5 2 dstr) ;;
  if negb (char_at dstr 7 "-") then None else
  d <-? parse_digits 2 (substring 8 2 dstr) ;;
  Some (y, m, d).

(** [HH[:MM[:SS[.fff[fff]]]]], by the length of the text. *)
Definition parse_hh_mm_ss_ff (t : string) : option (Z * Z * Z * Z) :=
  let field i := parse_digits 2 (substring i 2 t) in
  let colon i := char_at t i ":" in
  match String.length t with
  | 2%nat =>
      h <-? field 0%nat ;; Some (h, 0, 0, 0)
  | 5%nat =>
      if negb (colon 2%nat) then None else
      h <-? field 0%nat ;; m <-? field 3%nat ;; Some (h, m, 0, 0)
  | 8%nat =>
      if negb (colon 2%nat && colon 5%nat) then None else
      h <-? field 0%nat ;; m <-? field 3%nat ;; s <-? field 6%nat ;;
      Some (h, m, s, 0)
  | 12%nat =>
      if negb (colon 2%nat && colon 5%nat && char_at t 8 ".") then None else
      h <-? field 0%nat ;; m <-? field 3%nat ;; s <-? field 6%nat ;;
      f <-? parse_digits 3 (substring 9 3 t) ;;
      Some (h, m, s, f * 1000)
  | 15%nat =>
      if negb (colon 2%nat && colon 5%nat && char_at t 8 ".") then None else
      h <-? field 0%nat ;; m <-? field 3%nat ;; s <-? field 6%nat ;;
      f <-? parse_digits 6 (substring 9 6 t) ;;
      Some (h, m, s, f)
  | _ => None
  end.

(** The position of the UTC-offset sign: the first [-] if there is one, else
    the first [+]. *)
Definition tz_sign_pos (t : string) : option nat :=
  match String.index 0 "-" t with
  | Some i => Some i
  | None => String.index 0 "+" t
  end.

Definition parse_isoformat_time (t : string)
  : option (Z * Z * Z * Z * option Z) :=
  match tz_sign_pos t with
  | None =>
      '(h, m, s, f) <-? parse_hh_mm_ss_ff t ;; Some (h, m, s, f, None)
  | Some i =>
      let tzstr := substring (S i) (String.length t - S i) t in
      '(h, m, s, f) <-? parse_hh_mm_ss_ff (substring 0 i t) ;;
      if negb (existsb (Nat.eqb (String.length tzstr)) [5; 8; 15]%nat) then None else
      '(th, tm, ts, tf) <-? parse_hh_mm_ss_ff tzstr ;;
      let sign := if char_at t i "-" then -1 else 1 in
      Some (h, m, s, f, Some (sign * ((th * 3600 + tm * 60 + ts) * 1000000 + tf)))
  end.

Definition fromisoformat (s : string) : outcome datetime :=
  let parsed :=
    '(y, mo, d) <-? parse_isoformat_date (substring 0 10 s) ;;
    if Nat.eqb (String.length s) 10 then
      Some (mkDatetime y mo d 0 0 0 0 None)
    else
      '(h, mi, se, us, off) <-?
        parse_isoformat_time (substring 11 (String.length s - 11) s) ;;
      Some (mkDatetime y mo d h mi se us off) in
  match parsed with
  | Some dt => if valid_datetime dt then Ok dt else Raise ValueError
  | None => Raise ValueError
  end.

(** The [+HH:MM[:SS[.ffffff]]] suffix of [isoformat]. *)
Definition format_offset (off : Z) : string :=
  let a := Z.abs off in
  let us := a mod 1000000 in
  let secs := a / 1000000 in
  (if off <? 0 then "-" else "+")
  ++ zfill 2 (secs / 3600) ++ ":" ++ zfill 2 (secs / 60 mod 60)
  ++ (if (secs mod 60 =? 0) && (us =? 0) then ""
      else ":" ++ zfill 2 (secs mod 60)
           ++ (if us =? 0 then "" else "." ++ zfill 6 us)).

Definition isoformat (dt : datetime) : string :=
  zfill 4 (year dt) ++ "-" ++ zfill 2 (month dt) ++ "-" ++ zfill 2 (day dt)
  ++ "T" ++ zfill 2 (hour dt) ++ ":" ++ zfill 2 (minute dt)
  ++ ":" ++ zfill 2 (second dt)
  ++ (if microsecond dt =? 0 then "" else "." ++ zfill 6 (microsecond dt))
  ++ match tz dt with
     | Some off => format_offset off
     | None => ""
     end.

(** [datetime.combine(date, time, tzinfo)], the date being taken from [d]
    (that is [d.date()]). *)
Definition combine (d : datetime) (h mi s us : Z) (tzinfo : option Z) : datetime :=
  mkDatetime (year d) (month d) (day d) h mi s us tzinfo.

Definition replace_microsecond (dt : datetime) (us : Z) : datetime :=
  mkDatetime (year dt) (month dt) (day dt) (hour dt) (minute dt) (second dt)
             us (tz dt).

Definition utc : option Z := Some 0.

(** ** Observable events and the external services *)

Local Open Scope list_scope.

(** The JSON body of the time-off query ([payload] / [PAYLOAD]). *)
Record payload : Type := mkPayload {
  p_start : string;
  p_end : string;
  p_statuses : list string;
  p_userGroups : list string;
  p_users : list string
}.

(** What the code reads of a [requests] response: [status_code], [text], and
    [json()], which is [None] when the body is not JSON ([json()] raises). *)
Record response : Type := mkResponse {
  status_code : Z;
  text : string;
  json : option pyval
}.

(** The three outbound requests.  The credentials travel in the headers,
    which play no part in what is proved below; they are left out of the
    call. *)
Inductive call : Type :=
| ClockifyPost (p : payload)
| SlackLookup (email : pyval)
| SlackProfileSet (user_id : pyval) (status_text status_emoji : string)
                  (status_expiration : Z).

(** One constructor per message of the two files, carrying the values the
    f-string interpolates. *)
Inductive message : Type :=
| MsgFetching
| MsgErrorFetching (code : Z) (body : string)
| MsgNoRequestsFound
| MsgLookingUp (email : pyval)
| MsgUnableToFind (email : pyval)
| MsgCouldNotFind (email error : pyval)
| MsgUpdating (user_id : pyval) (status_text status_emoji : string) (expiration : Z)
| MsgUpdated (user_id : pyval) (status_text : string)
| MsgFailedToUpdate (user_id : pyval) (body : pyval)
| MsgStart
| MsgFound (n : nat)
| MsgNoUsersOnLeave
| MsgUpdatingFor (n : nat)
| MsgProcessing (email policy_name : pyval)
| MsgSlackUserId (email user_id : pyval)
| MsgSkipping (email : pyval)
| MsgUnknownPolicy (policy_name email : pyval)
| MsgLambdaStarted
| MsgLambdaCompleted.

Inductive level : Type := WARNING | ERROR.

Inductive event : Type :=
| Print (m : message)
| Logging (l : level) (m : message)
| Http (c : call).

(** The printed lines whose text opens with the warning sign. *)
Definition warning_text (m : message) : bool :=
  match m with
  | MsgCouldNotFind _ _ | MsgUnknownPolicy _ _ => true
  | _ => false
  end.

(** A warning: a [logging.warning] record, or a printed warning line. *)
Definition is_warning (e : event) : bool :=
  match e with
  | Logging WARNING _ => true
  | Print m => warning_text m
  | _ => false
  end.

Definition is_lookup (e : event) : bool :=
  match e with
  | Http (SlackLookup _) => true
  | _ => false
  end.

Definition is_update (e : event) : bool :=
  match e with
  | Http (SlackProfileSet _ _ _ _) => true
  | _ => false
  end.

Definition count (p : event -> bool) (t : list event) : nat :=
  List.length (filter p t).

Fixpoint calls_of (t : list event) : list call :=
  match t with
  | [] => []
  | Http c :: t' => c :: calls_of t'
  | _ :: t' => calls_of t'
  end.

(** The world outside the process.  Each service answers a request knowing
    the requests made before it in the run, so that the same request can be
    answered differently the second time.  A call that gets no response at
    all (a transport failure) is outside the model. *)
Record services : Type := mkServices {
  utc_now : datetime;
  local_mktime : datetime -> option Z;
  clockify_time_off : list call -> payload -> response;
  slack_lookup_by_email : list call -> pyval -> response;
  slack_profile_set : list call -> pyval -> string -> string -> Z -> response
}.

(** ** The monad of the code: events written, calls remembered, exceptions

    A computation is run after the calls [h] the process has made so far; it
    gives a value or raises, and the events it produced, in order.  The
    events produced up to an exception are kept. *)

Definition M (A : Type) : Type := list call -> outcome A * list event.

Definition ret {A : Type} (a : A) : M A := fun _ => (Ok a, []).

Definition bind {A B : Type} (c : M A) (k : A -> M B) : M B :=
  fun h =>
    let p := c h in
    match fst p with
    | Ok a =>
        let q := k a (h ++ calls_of (snd p)) in
        (fst q, snd p ++ snd q)
    | Raise e => (Raise e, snd p)
    end.

Notation "x <- c ;; k" := (bind c (fun x => k))
  (at level 61, c at next level, right associativity).
Notation "c ;; k" := (bind c (fun _ => k))
  (at level 61, right associativity).

Definition emit (e : event) : M unit := fun _ => (Ok tt, [e]).

Definition print (m : message) : M unit := emit (Print m).

Definition logging_warning (m : message) : M unit := emit (Logging WARNING m).

Definition logging_error (m : message) : M unit := emit (Logging ERROR m).

(** An expression that may raise, evaluated in place. *)
Definition lift {A : Type} (o : outcome A) : M A := fun _ => (o, []).

(** An outbound request: the service sees the calls made so far. *)
Definition http (c : call) (answer : list call -> response) : M response :=
  fun h => (Ok (answer h), [Http c]).

(** [response.json()] *)
Definition response_json (r : response) : outcome pyval :=
  match json r with
  | Some v => Ok v
  | None => Raise JSONDecodeError
  end.

(** A [for] loop whose body returns nothing. *)
Fixpoint for_each {A : Type} (body : A -> M unit) (l : list A) : M unit :=
  match l with
  | [] => ret tt
  | a :: l' => body a ;; for_each body l'
  end.

Definition obind {A B : Type} (o : outcome A) (k : A -> outcome B) : outcome B :=
  match o with
  | Ok a => k a
  | Raise e => Raise e
  end.

Notation "x <-! o ;; k" := (obind o (fun x => k))
  (at level 61, o at next level, right associativity).

(** A list comprehension whose element expression may raise. *)
Fixpoint comprehension {A B : Type} (f : A -> outcome B) (l : list A)
  : outcome (list B) :=
  match l with
  | [] => Ok []
  | a :: l' => b <-! f a ;; bs <-! comprehension f l' ;; Ok (b :: bs)
  end.

(** ** What the two files share word for word *)

(** [STATUS_MAP] *)
Definition STATUS_MAP : list (string * (string * string)) :=
  [ ("Vacations", ("On Holiday", ":palm_tree:"));
    ("Sick", ("Off Sick", ":face_with_thermometer:")) ].

Fixpoint assoc {V : Type} (k : string) (l : list (string * V)) : option V :=
  match l with
  | [] => None
  | (k', v) :: l' => if String.eqb k' k then Some v else assoc k l'
  end.

(** The entry of the table under a Python value: only a string can equal one
    of its keys. *)
Definition status_entry (policy_name : pyval) : option (string * string) :=
  match policy_name with
  | PStr s => assoc s STATUS_MAP
  | _ => None
  end.

(** [policy_name in STATUS_MAP]: the key is hashed first. *)
Definition in_STATUS_MAP (policy_name : pyval) : outcome bool :=
  if hashable policy_name then
    Ok (match status_entry policy_name with Some _ => true | None => false end)
  else Raise TypeError.

(** [STATUS_MAP[policy_name]] *)
Definition STATUS_MAP_getitem (policy_name : pyval) : outcome (string * string) :=
  if hashable policy_name then
    match status_entry policy_name with
    | Some e => Ok e
    | None => Raise KeyError
    end
  else Raise TypeError.

(** [int(datetime.fromisoformat(end_date.replace("Z", "+00:00")).timestamp())
     if end_date else 0] *)
Definition expiration_time (S : services) (end_date : pyval) : outcome Z :=
  if truthy end_date then
    match end_date with
    | PStr s =>
        dt <-! fromisoformat (str_replace "Z" "+00:00" s) ;;
        ts <-! timestamp (local_mktime S) dt ;;
        Ok (int_of_float ts)
    | _ => Raise AttributeError
    end
  else Ok 0.

(** [START_DATE] and [END_DATE], from
    [today = datetime.now(timezone.utc).date()]. *)
Definition START_DATE (S : services) : string :=
  isoformat (combine (utc_now S) 0 0 0 0 utc).

Definition END_DATE (S : services) : string :=
  isoformat (replace_microsecond (combine (utc_now S) 23 59 59 999999 utc) 999999).

Definition time_off_payload (S : services) : payload :=
  mkPayload (START_DATE S) (END_DATE S) ["APPROVED"]
            ["63ceed2d4464230f61549c02"] [].

(** ** [lambda_function.py]: the scheduled-function variant *)

Module Lambda.

(** The dict built per request by [get_time_off_requests]. *)
Record time_off_record : Type := mkRecord {
  email : pyval;
  name : pyval;
  start : pyval;
  end_ : pyval;
  policy_name : pyval
}.

(** The element expression of the comprehension in [get_time_off_requests]. *)
Definition normalize (req : pyval) : outcome time_off_record :=
  e <-! py_get req "userEmail" PNone ;;
  n <-! py_get req "userName" PNone ;;
  top1 <-! py_get req "timeOffPeriod" (PDict []) ;;
  per1 <-! py_get top1 "period" (PDict []) ;;
  st <-! py_get per1 "start" PNone ;;
  top2 <-! py_get req "timeOffPeriod" (PDict []) ;;
  per2 <-! py_get top2 "period" (PDict []) ;;
  en <-! py_get per2 "end" PNone ;;
  pol <-! py_get req "policyName" (PDict []) ;;
  Ok (mkRecord e n st en pol).

(** The value [lambda_handler] returns. *)
Record envelope : Type := mkEnvelope {
  statusCode : Z;
  body : string
}.

Section WithServices.

Variable S : services.

Definition get_time_off_requests : M (list time_off_record) :=
  print MsgFetching ;;
  response <- http (ClockifyPost (time_off_payload S))
                   (fun h => clockify_time_off S h (time_off_payload S)) ;;
  if status_code response =? 200 then
    data <- lift (response_json response) ;;
    lift (requests <-! py_get data "requests" (PList []) ;;
          reqs <-! py_iter requests ;;
          comprehension normalize reqs)
  else
    print (MsgErrorFetching (status_code response) (text response)) ;;
    ret [].

Definition get_slack_user_id (email : pyval) : M pyval :=
  print (MsgLookingUp email) ;;
  response <- http (SlackLookup email)
                   (fun h => slack_lookup_by_email S h email) ;;
  data <- lift (response_json response) ;;
  ok <- lift (py_get data "ok" PNone) ;;
  if truthy ok then
    lift (user <-! py_getitem data "user" ;; py_getitem user "id")
  else
    logging_warning (MsgUnableToFind email) ;;
    ret PNone.

Definition set_user_status (user_id : pyval) (text emoji : string)
                           (expiration_time : Z) : M unit :=
  print (MsgUpdating user_id text emoji expiration_time) ;;
  response <- http (SlackProfileSet user_id text emoji expiration_time)
                   (fun h => slack_profile_set S h user_id text emoji expiration_time) ;;
  ok <- lift (if status_code response =? 200 then
                b <-! response_json response ;;
                v <-! py_get b "ok" PNone ;;
                Ok (truthy v)
              else Ok false) ;;
  if ok then
    print (MsgUpdated user_id text)
  else
    b <- lift (response_json response) ;;
    logging_error (MsgFailedToUpdate user_id b).

(** The body of the [for user in time_off_users] loop. *)
Definition process_user (user : time_off_record) : M unit :=
  print (MsgProcessing (email user) (policy_name user)) ;;
  expiration <- lift (expiration_time S (end_ user)) ;;
  known <- lift (in_STATUS_MAP (policy_name user)) ;;
  if known then
    slack_user_id <- get_slack_user_id (email user) ;;
    print (MsgSlackUserId (email user) slack_user_id) ;;
    if truthy slack_user_id then
      entry <- lift (STATUS_MAP_getitem (policy_name user)) ;;
      set_user_status slack_user_id (fst entry) (snd entry) expiration
    else
      logging_warning (MsgSkipping (email user))
  else ret tt.

Definition update_slack_status_for_time_off_users : M unit :=
  print MsgStart ;;
  time_off_users <- get_time_off_requests ;;
  print (MsgFound (List.length time_off_users)) ;;
  for_each process_user time_off_users.

Definition lambda_handler : M envelope :=
  print MsgLambdaStarted ;;
  update_slack_status_for_time_off_users ;;
  print MsgLambdaCompleted ;;
  ret (mkEnvelope 200 "Lambda function completed successfully!").

End WithServices.

End Lambda.

(** ** [main.py]: the standalone-script variant *)

Module Main.

Record time_off_record : Type := mkRecord {
  email : pyval;
  name : pyval;
  start : pyval;
  end_ : pyval;
  status : pyval;
  policy_name : pyval
}.

Definition normalize (request : pyval) : outcome time_off_record :=
  e <-! py_get request "userEmail" PNone ;;
  n <-! py_get request "userName" PNone ;;
  top1 <-! py_get request "timeOffPeriod" (PDict []) ;;
  per1 <-! py_get top1 "period" (PDict []) ;;
  st <-! py_get per1 "start" PNone ;;
  top2 <-! py_get request "timeOffPeriod" (PDict []) ;;
  per2 <-! py_get top2 "period" (PDict []) ;;
  en <-! py_get per2 "end" PNone ;;
  sta <-! py_get request "status" (PDict []) ;;
  sty <-! py_get sta "statusType" PNone ;;
  pol <-! py_get request "policyName" (PDict []) ;;
  Ok (mkRecord e n st en sty pol).

Section WithServices.

Variable S : services.

Definition get_time_off_requests : M (list time_off_record) :=
  response <- http (ClockifyPost (time_off_payload S))
                   (fun h => clockify_time_off S h (time_off_payload S)) ;;
  if status_code response =? 200 then
    data <- lift (response_json response) ;;
    requests_list <- lift (py_get data "requests" (PList [])) ;;
    if negb (truthy requests_list) then
      print MsgNoRequestsFound ;;
      ret []
    else
      lift (reqs <-! py_iter requests_list ;; comprehension normalize reqs)
  else
    print (MsgErrorFetching (status_code response) (text response)) ;;
    ret [].

Definition get_slack_user_id (email : pyval) : M pyval :=
  response <- http (SlackLookup email)
                   (fun h => slack_lookup_by_email S h email) ;;
  data <- lift (response_json response) ;;
  ok <- lift (py_get data "ok" PNone) ;;
  if truthy ok then
    lift (user <-! py_getitem data "user" ;; py_getitem user "id")
  else
    err <- lift (py_get data "error" PNone) ;;
    print (MsgCouldNotFind email err) ;;
    ret PNone.

Definition set_user_status (user_id : pyval) (text emoji : string)
                           (expiration_time : Z) : M unit :=
  response <- http (SlackProfileSet user_id text emoji expiration_time)
                   (fun h => slack_profile_set S h user_id text emoji expiration_time) ;;
  ok <- lift (if status_code response =? 200 then
                b <-! response_json response ;;
                v <-! py_get b "ok" PNone ;;
                Ok (truthy v)
              else Ok false) ;;
  if ok then
    print (MsgUpdated user_id text)
  else
    b <- lift (response_json response) ;;
    print (MsgFailedToUpdate user_id b).

(** The body of the [for user in time_off_users] loop; the [continue] of the
    unknown-policy branch ends it. *)
Definition process_user (user : time_off_record) : M unit :=
  expiration <- lift (expiration_time S (end_ user)) ;;
  known <- lift (in_STATUS_MAP (policy_name user)) ;;
  if known then
    entry <- lift (STATUS_MAP_getitem (policy_name user)) ;;
    slack_user_id <- get_slack_user_id (email user) ;;
    if truthy slack_user_id then
      set_user_status slack_user_id (fst entry) (snd entry) expiration
    else ret tt
  else
    print (MsgUnknownPolicy (policy_name user) (email user)).

Definition update_slack_status_for_time_off_users : M unit :=
  time_off_users <- get_time_off_requests ;;
  match time_off_users with
  | [] => print MsgNoUsersOnLeave
  | _ =>
      print (MsgUpdatingFor (List.length time_off_users)) ;;
      for_each process_user time_off_users
  end.

End WithServices.

End Main.

(** ** Vocabulary of the specification *)

(** The end timestamp of a record is absent (falsy), or a string that, with
    its [Z] read as [+00:00], is a timestamp carrying its UTC offset. *)
Definition wf_end (e : pyval) : Prop :=
  truthy e = false \/
  exists s dt off,
    e = PStr s /\ fromisoformat (str_replace "Z" "+00:00" s) = Ok dt /\
    tz dt = Some off.

(** The chat user id an answer of the lookup endpoint resolves the email to:
    a JSON object with a true [ok] and a non-empty [user.id]. *)
Definition resolved_id (r : response) : option pyval :=
  match json r with
  | Some (PDict d) =>
      match dict_get d "ok" with
      | Some ok =>
          if truthy ok then
            match dict_get d "user" with
            | Some (PDict ud) =>
                match dict_get ud "id" with
                | Some uid => if truthy uid then Some uid else None
                | None => None
                end
            | _ => None
            end
          else None
      | None => None
      end
  | _ => None
  end.

(** The value under a path of keys in nested JSON objects. *)
Fixpoint lookup_path (v : pyval) (path : list string) : option pyval :=
  match path with
  | [] => Some v
  | k :: path' =>
      match v with
      | PDict d =>
          match dict_get d k with
          | Some x => lookup_path x path'
          | None => None
          end
      | _ => None
      end
  end.

Definition or_default (o : option pyval) (default : pyval) : pyval :=
  match o with
  | Some v => v
  | None => default
  end.

(** Example services: the clock of the specification's examples, a time-off
    service answering with [fetch], a lookup answering with [lookup] and an
    update endpoint answering with [update], whatever the request. *)
Definition example_now : datetime := mkDatetime 2025 6 2 10 0 0 0 utc.

Definition const_services (fetch lookup update : response) : services :=
  mkServices example_now (fun _ => None)
             (fun _ _ => fetch) (fun _ _ => lookup) (fun _ _ _ _ _ => update).

Definition json_response (code : Z) (v : pyval) : response :=
  mkResponse code "" (Some v).

Definition lookup_found : response :=
  json_response 200
    (PDict [("ok", PBool true); ("user", PDict [("id", PStr "U1")])]).

Definition lookup_not_found : response :=
  json_response 200
    (PDict [("ok", PBool false); ("error", PStr "users_not_found")]).

Definition update_ok : response :=
  json_response 200 (PDict [("ok", PBool true)]).

Definition bad_gateway : response :=
  mkResponse 502 "<html>502 Bad Gateway</html>" None.


(** A request object as the time-off service sends it. *)
Definition time_off_request (email policy : string) (end_date : pyval) : pyval :=
  PDict [("userEmail", PStr email); ("userName", PStr "N");
         ("timeOffPeriod",
          PDict [("period", PDict [("start", PStr "2025-06-02T00:00:00Z");
                                   ("end", end_date)])]);
         ("policyName", PStr policy)].

(** The same without its [policyName] field. *)
Definition request_without_policy (email : string) : pyval :=
  PDict [("userEmail", PStr email); ("userName", PStr "N");
         ("timeOffPeriod",
          PDict [("period", PDict [("start", PStr "2025-06-02T00:00:00Z");
                                   ("end", PStr "2025-06-02T23:59:59.999999Z")])])].

Definition fetch_ok (reqs : list pyval) : response :=
  json_response 200 (PDict [("requests", PList reqs)]).

Definition end_of_day : pyval := PStr "2025-06-02T23:59:59.999999Z".

(** The time-off service reports one record with a policy outside the table,
    then one on vacation; the chat service knows everybody. *)
Definition unknown_then_vacation : services :=
  const_services
    (fetch_ok [time_off_request "b@x.com" "Unknown" end_of_day;
               time_off_request "a@x.com" "Vacations" end_of_day])
    lookup_found update_ok.

(** One record on vacation, whose email the chat service does not know. *)
Definition vacation_not_found : services :=
  const_services (fetch_ok [time_off_request "c@x.com" "Vacations" end_of_day])
                 lookup_not_found update_ok.

(** One record on vacation; the chat service answers the lookup with an
    error page instead of JSON. *)
Definition vacation_lookup_down : services :=
  const_services (fetch_ok [time_off_request "a@x.com" "Vacations" end_of_day])
                 bad_gateway update_ok.

(** One request without [policyName], then one on vacation. *)
Definition missing_policy_then_vacation : services :=
  const_services
    (fetch_ok [request_without_policy "b@x.com";
               time_off_request "a@x.com" "Vacations" end_of_day])
    lookup_found update_ok.

(** The shape of a request object: an object whose [timeOffPeriod], when it
    has one, is an object whose [period], when it has one, is an object. *)
Definition is_object (v : pyval) : bool :=
  match v with
  | PDict _ => true
  | _ => false
  end.

Definition optional_object (v : pyval) (k : string) : bool :=
  match v with
  | PDict d =>
      match dict_get d k with
      | Some x => is_object x
      | None => true
      end
  | _ => false
  end.

Definition request_object (req : pyval) : bool :=
  optional_object req "timeOffPeriod"
  && match lookup_path req ["timeOffPeriod"] with
     | Some tp => optional_object tp "period"
     | None => true
     end.

(** The standalone variant also reads [status.statusType]. *)
Definition status_object (req : pyval) : bool := optional_object req "status".

(** The normalized record of a request, field by field as the specification
    names them; an absent field is [None], an absent policy name the empty
    mapping. *)
Definition lambda_record_of (req : pyval) : Lambda.time_off_record :=
  Lambda.mkRecord
    (or_default (lookup_path req ["userEmail"]) PNone)
    (or_default (lookup_path req ["userName"]) PNone)
    (or_default (lookup_path req ["timeOffPeriod"; "period"; "start"]) PNone)
    (or_default (lookup_path req ["timeOffPeriod"; "period"; "end"]) PNone)
    (or_default (lookup_path req ["policyName"]) (PDict [])).

Definition main_record_of (req : pyval) : Main.time_off_record :=
  Main.mkRecord
    (or_default (lookup_path req ["userEmail"]) PNone)
    (or_default (lookup_path req ["userName"]) PNone)
    (or_default (lookup_path req ["timeOffPeriod"; "period"; "start"]) PNone)
    (or_default (lookup_path req ["timeOffPeriod"; "period"; "end"]) PNone)
    (or_default (lookup_path req ["status"; "statusType"]) PNone)
    (or_default (lookup_path req ["policyName"]) (PDict [])).

(** Well-formed answers, after the interfaces the specification describes.

    A request is well formed when it is a request object (with an object for
    its [status], if any), its end date is absent or a timestamp, and it has
    a policy name that can be hashed (a string, say). *)
Definition wf_request (req : pyval) : Prop :=
  request_object req = true /\ status_object req = true
  /\ wf_end (or_default (lookup_path req ["timeOffPeriod"; "period"; "end"]) PNone)
  /\ exists p, lookup_path req ["policyName"] = Some p /\ hashable p = true.

(** A 200 answer of the time-off service is a JSON object whose [requests],
    if any, is a list of well-formed requests. *)
Definition wf_fetch_response (r : response) : Prop :=
  status_code r = 200 ->
  exists d,
    json r = Some (PDict d)
    /\ match dict_get d "requests" with
       | None => True
       | Some (PList reqs) => Forall wf_request reqs
       | Some _ => False
       end.

(** An answer of the lookup is a JSON object which, when [ok], has a [user]
    object with an [id]. *)
Definition wf_lookup_response (r : response) : Prop :=
  exists d,
    json r = Some (PDict d)
    /\ (truthy (or_default (dict_get d "ok") PNone) = true ->
        exists ud uid,
          dict_get d "user" = Some (PDict ud) /\ dict_get ud "id" = Some uid).

(** An answer of the update endpoint is a JSON object. *)
Definition wf_update_response (r : response) : Prop :=
  exists d, json r = Some (PDict d).

Definition wf_services (S : services) : Prop :=
  (forall h p, wf_fetch_response (clockify_time_off S h p))
  /\ (forall h e, wf_lookup_response (slack_lookup_by_email S h e))
  /\ (forall h u t e x, wf_update_response (slack_profile_set S h u t e x)).

(** A record the loop can process: its end is absent or a timestamp, its
    policy name can be hashed. *)
Definition wf_lambda_record (u : Lambda.time_off_record) : Prop :=
  wf_end (Lambda.end_ u) /\ hashable (Lambda.policy_name u) = true.

Definition wf_main_record (u : Main.time_off_record) : Prop :=
  wf_end (Main.end_ u) /\ hashable (Main.policy_name u) = true.

(** The calls one record can give rise to: none, the lookup of its email,
    or that lookup followed by one update. *)
Definition record_calls (email : pyval) (g : list call) : Prop :=
  g = [] \/ g = [SlackLookup email]
  \/ exists uid text emoji exp,
       g = [SlackLookup email; SlackProfileSet uid text emoji exp].

(** The emails looked up, in the order of the lookups. *)
Fixpoint lookup_emails (t : list event) : list pyval :=
  match t with
  | [] => []
  | Http (SlackLookup email) :: t' => email :: lookup_emails t'
  | _ :: t' => lookup_emails t'
  end.

(** The policy name is a key of the table. *)
Definition known_policy (policy_name : pyval) : bool :=
  match status_entry policy_name with
  | Some _ => true
  | None => false
  end.

(** ** Credentials

    What the two files do when they are loaded: read the three secrets and
    build the URL of the time-off endpoint. *)

(** [SECRET_NAME] and [REGION_NAME] *)
Definition SECRET_NAME : string := "Clockify_Slack_Secrets".
Definition REGION_NAME : string := "eu-north-1".

(** What loading the credentials can meet: an error of the AWS client, the
    [ValueError] that [get_secrets] raises itself when the answer has no
    [SecretString], and a Python exception of [json.loads] or of the
    module's own code. *)
Inductive secret_exn : Type :=
| ClientError (msg : string)
| NoSecretString
| PythonError (e : exn).

Inductive attempt (A : Type) : Type :=
| Done (a : A)
| Failed (e : secret_exn).
Arguments Done {A} a.
Arguments Failed {A} e.

(** The lines [get_secrets] prints. *)
Inductive secret_message : Type :=
| SecFetching
| SecRetrieved
| SecError (e : secret_exn).

(** The secret store and the JSON reader, from outside: [boto3_client]
    builds the client for a region, [get_secret_value] answers a secret id
    with the dict of the response, [json_loads] is [json.loads] on the value
    it is given. *)
Record secret_store : Type := mkSecretStore {
  boto3_client : string -> attempt unit;
  get_secret_value : string -> attempt (list (string * pyval));
  json_loads : pyval -> attempt pyval
}.

(** [get_secrets]: the client is built outside the [try]; everything raised
    inside it is caught, reported, and answered with the empty dict. *)
Definition get_secrets (A : secret_store)
  : attempt pyval * list secret_message :=
  match boto3_client A REGION_NAME with
  | Failed e => (Failed e, [SecFetching])
  | Done _ =>
      match get_secret_value A SECRET_NAME with
      | Failed e => (Done (PDict []), [SecFetching; SecError e])
      | Done response =>
          match dict_get response "SecretString" with
          | Some secret_string =>
              match json_loads A secret_string with
              | Done secret_dict => (Done secret_dict, [SecFetching; SecRetrieved])
              | Failed e =>
                  (Done (PDict []), [SecFetching; SecRetrieved; SecError e])
              end
          | None =>
              (Done (PDict []),
               [SecFetching; SecRetrieved; SecError NoSecretString])
          end
      end
  end.

(** The module-level names of both files. *)
Record credentials : Type := mkCredentials {
  CLOCKIFY_API_KEY : pyval;
  SLACK_TOKEN : pyval;
  WORKSPACE_ID : pyval;
  CLOCKIFY_TIME_OFF_URL : string
}.

Section Formatting.

(** The text Python gives a value other than [None] or a string. *)
Variable py_str : pyval -> string.

(** [f"{v}"] *)
Definition format_value (v : pyval) : string :=
  match v with
  | PNone => "None"
  | PStr s => s
  | _ => py_str v
  end.

(** [f"https://api.clockify.me/api/v1/workspaces/{WORKSPACE_ID}/time-off/requests"] *)
Definition time_off_url (workspace_id : pyval) : string :=
  ("https://api.clockify.me/api/v1/workspaces/" ++ format_value workspace_id
   ++ "/time-off/requests")%string.

(** Loading [lambda_function.py]: [secrets = get_secrets()], then three
    [secrets.get], which only a dict has. *)
Definition lambda_load (A : secret_store) : attempt credentials :=
  match fst (get_secrets A) with
  | Failed e => Failed e
  | Done secrets =>
      match py_get secrets "CLOCKIFY_API_KEY" PNone,
            py_get secrets "SLACK_TOKEN" PNone,
            py_get secrets "CLOCKIFY_WORKSPACE_ID" PNone with
      | Ok key, Ok token, Ok workspace =>
          Done (mkCredentials key token workspace (time_off_url workspace))
      | Raise e, _, _ | _, Raise e, _ | _, _, Raise e => Failed (PythonError e)
      end
  end.

(** Loading [main.py]: three [os.getenv] on the environment as
    [load_dotenv] leaves it. *)
Definition getenv (env : string -> option string) (k : string) : pyval :=
  match env k with
  | Some v => PStr v
  | None => PNone
  end.

Definition main_load (env : string -> option string) : credentials :=
  mkCredentials (getenv env "CLOCKIFY_API_KEY") (getenv env "SLACK_TOKEN")
                (getenv env "CLOCKIFY_WORKSPACE_ID")
                (time_off_url (getenv env "CLOCKIFY_WORKSPACE_ID")).

End Formatting.

(** A secret store that cannot be reached, one whose secret is a JSON list,
    and an environment without any of the three variables. *)
Definition store_unreachable : secret_store :=
  mkSecretStore (fun _ => Done tt)
                (fun _ => Failed (ClientError "AccessDeniedException"))
                (fun _ => Failed (PythonError JSONDecodeError)).

Definition store_with_list : secret_store :=
  mkSecretStore (fun _ => Done tt)
                (fun _ => Done [("SecretString", PStr "[1, 2]")])
                (fun _ => Done (PList [PInt 1; PInt 2])).

Definition empty_env : string -> option string := fun _ => None.

(** A record of the scheduled variant and one of the standalone variant
    that stand for the same request: the loop reads nothing else of them. *)
Definition same_record (ul : Lambda.time_off_record)
    (um : Main.time_off_record) : Prop :=
  Lambda.email ul = Main.email um /\ Lambda.end_ ul = Main.end_ um
  /\ Lambda.policy_name ul = Main.policy_name um.

(** An update endpoint that refuses, and a lookup that says [ok] with an
    empty id. *)
Definition update_refused : response :=
  json_response 200 (PDict [("ok", PBool false); ("error", PStr "invalid_auth")]).

Definition lookup_empty_id : response :=
  json_response 200
    (PDict [("ok", PBool true); ("user", PDict [("id", PStr "")])]).

(** The groups of events a loop over [recs] writes when it starts after the
    calls [h]: one group per record, in the order of the records, each group
    being what the body writes on its record, run after the calls of the
    groups before it.  A record on which the body raises is the last one to
    have a group: the records after it are not processed.  [P] is what is
    said of each record, the calls made before it, and its group. *)
Inductive processed {A : Type} (body : A -> M unit)
    (P : A -> list call -> list event -> Prop)
  : list call -> list A -> list (list event) -> Prop :=
| processed_nil (h : list call) : processed body P h [] []
| processed_returns (h : list call) (u : A) (us : list A)
    (g : list event) (gs : list (list event)) :
    body u h = (Ok tt, g) -> P u h g ->
    processed body P (h ++ calls_of g) us gs ->
    processed body P h (u :: us) (g :: gs)
| processed_raises (h : list call) (u : A) (us : list A) (e : exn)
    (g : list event) :
    body u h = (Raise e, g) -> P u h g ->
    processed body P h (u :: us) [g].



(** ** Theorems *)

(** *** Expiration *)

(** C5.  The end timestamp "2025-06-02T23:59:59.999999Z" gives the expiration
    1748908799, the whole epoch seconds of that instant read as UTC (the
    microseconds are dropped by [int]); an absent end timestamp, [None] or
    the empty string, gives 0. *)
Theorem expiration_time_examples (S : services) :
  expiration_time S (PStr "2025-06-02T23:59:59.999999Z") = Ok 1748908799
  /\ 1748908799
     = (ymd2ord 2025 6 2 - ymd2ord 1970 1 1) * 86400 + 23 * 3600 + 59 * 60 + 59
  /\ expiration_time S PNone = Ok 0
  /\ expiration_time S (PStr "") = Ok 0.
Proof.
  repeat split; vm_compute; reflexivity.
Qed.

(** *** Running the monad *)

Ltac run_m :=
  unfold bind, print, logging_warning, logging_error, emit, http, lift, ret,
         response_json;
  cbn; rewrite ?app_nil_r.

(** The same, keeping [response.json()] folded. *)
Ltac run_k :=
  unfold bind, print, logging_warning, logging_error, emit, http, lift, ret;
  cbn -[response_json]; rewrite ?app_nil_r.

(** Splits on whatever value the reduced run is still waiting for. *)
Ltac split_run :=
  match goal with
  | |- context [match ?x with _ => _ end] =>
      lazymatch x with
      | context [match _ with _ => _ end] => fail
      | _ => destruct x eqn:?
      end
  end.

Ltac run_cases := repeat (run_m; try split_run).

Lemma count_app (p : event -> bool) (t u : list event) :
  count p (t ++ u) = (count p t + count p u)%nat.
Proof.
  unfold count. rewrite filter_app, length_app. reflexivity.
Qed.

Lemma calls_of_app (t u : list event) :
  calls_of (t ++ u) = calls_of t ++ calls_of u.
Proof.
  induction t as [|[m|l m|c] t IH]; cbn; rewrite ?IH; reflexivity.
Qed.

(** *** The lookup *)

(** C9.  When the lookup answers a JSON object whose [ok] is true,
    [get_slack_user_id] returns the [user.id] of the answer; when [ok] is
    false it returns [None] without raising, after a warning that carries the
    email ([logging.warning] in the scheduled variant, a printed warning line
    in the standalone one). *)
Theorem get_slack_user_id_contract
    (S : services) (h : list call) (email : pyval) (d : list (string * pyval)) :
  json (slack_lookup_by_email S h email) = Some (PDict d) ->
  (forall ud uid,
      dict_get d "ok" = Some (PBool true) ->
      dict_get d "user" = Some (PDict ud) ->
      dict_get ud "id" = Some uid ->
      Lambda.get_slack_user_id S email h
        = (Ok uid, [Print (MsgLookingUp email); Http (SlackLookup email)])
      /\ Main.get_slack_user_id S email h
         = (Ok uid, [Http (SlackLookup email)]))
  /\ (dict_get d "ok" = Some (PBool false) ->
      Lambda.get_slack_user_id S email h
        = (Ok PNone, [Print (MsgLookingUp email); Http (SlackLookup email);
                      Logging WARNING (MsgUnableToFind email)])
      /\ Main.get_slack_user_id S email h
         = (Ok PNone,
            [Http (SlackLookup email);
             Print (MsgCouldNotFind email (or_default (dict_get d "error") PNone))])
      /\ is_warning (Logging WARNING (MsgUnableToFind email)) = true
      /\ is_warning
           (Print (MsgCouldNotFind email (or_default (dict_get d "error") PNone)))
         = true).
Proof.
  intros Hj. split.
  - intros ud uid Hok Hu Hid. unfold Lambda.get_slack_user_id, Main.get_slack_user_id.
    run_m. rewrite Hj. run_m. rewrite Hok. run_m. rewrite Hu. run_m.
    rewrite Hid. split; reflexivity.
  - intros Hok. unfold Lambda.get_slack_user_id, Main.get_slack_user_id.
    run_m. rewrite Hj. run_m. rewrite Hok. run_m.
    repeat split; reflexivity.
Qed.

Lemma get_slack_user_id_contract_witness :
  Lambda.get_slack_user_id (const_services bad_gateway lookup_not_found update_ok)
                           (PStr "a@x.com") []
  = (Ok PNone, [Print (MsgLookingUp (PStr "a@x.com"));
                Http (SlackLookup (PStr "a@x.com"));
                Logging WARNING (MsgUnableToFind (PStr "a@x.com"))]).
Proof.
  apply (get_slack_user_id_contract
           (const_services bad_gateway lookup_not_found update_ok) []
           (PStr "a@x.com")
           [("ok", PBool false); ("error", PStr "users_not_found")]);
    reflexivity.
Defined.

(** *** A failed fetch *)

(** C7.  When the time-off service answers with a status other than 200,
    [get_time_off_requests] reports the status code and the body and returns
    the empty list, and the run makes no lookup call and no update call. *)
Theorem fetch_failure_is_a_no_op (S : services) (h : list call) :
  status_code (clockify_time_off S h (time_off_payload S)) <> 200 ->
  let report :=
    Print (MsgErrorFetching
             (status_code (clockify_time_off S h (time_off_payload S)))
             (text (clockify_time_off S h (time_off_payload S)))) in
  let post := Http (ClockifyPost (time_off_payload S)) in
  Lambda.get_time_off_requests S h = (Ok [], [Print MsgFetching; post; report])
  /\ Main.get_time_off_requests S h = (Ok [], [post; report])
  /\ Lambda.update_slack_status_for_time_off_users S h
     = (Ok tt, [Print MsgStart; Print MsgFetching; post; report;
                Print (MsgFound 0)])
  /\ Main.update_slack_status_for_time_off_users S h
     = (Ok tt, [post; report; Print MsgNoUsersOnLeave])
  /\ count is_lookup (snd (Lambda.update_slack_status_for_time_off_users S h))
     = 0%nat
  /\ count is_update (snd (Lambda.update_slack_status_for_time_off_users S h))
     = 0%nat
  /\ count is_lookup (snd (Main.update_slack_status_for_time_off_users S h))
     = 0%nat
  /\ count is_update (snd (Main.update_slack_status_for_time_off_users S h))
     = 0%nat.
Proof.
  intros Hne report post. apply Z.eqb_neq in Hne.
  assert (HL : Lambda.update_slack_status_for_time_off_users S h
     = (Ok tt, [Print MsgStart; Print MsgFetching; post; report;
                Print (MsgFound 0)])).
  { unfold Lambda.update_slack_status_for_time_off_users,
      Lambda.get_time_off_requests. run_m. rewrite Hne. reflexivity. }
  assert (HM : Main.update_slack_status_for_time_off_users S h
     = (Ok tt, [post; report; Print MsgNoUsersOnLeave])).
  { unfold Main.update_slack_status_for_time_off_users,
      Main.get_time_off_requests. run_m. rewrite Hne. reflexivity. }
  rewrite HL, HM.
  repeat split.
  - unfold Lambda.get_time_off_requests. run_m. rewrite Hne. reflexivity.
  - unfold Main.get_time_off_requests. run_m. rewrite Hne. reflexivity.
Qed.

Lemma fetch_failure_is_a_no_op_witness :
  Lambda.update_slack_status_for_time_off_users
    (const_services bad_gateway lookup_found update_ok) []
  = (Ok tt,
     [Print MsgStart; Print MsgFetching;
      Http (ClockifyPost
              (time_off_payload (const_services bad_gateway lookup_found update_ok)));
      Print (MsgErrorFetching 502 "<html>502 Bad Gateway</html>");
      Print (MsgFound 0)]).
Proof.
  apply (fetch_failure_is_a_no_op
           (const_services bad_gateway lookup_found update_ok) []).
  cbn. lia.
Defined.

(** *** Inverting a run *)

Lemma bind_inv {A B : Type} (c : M A) (k : A -> M B) (h : list call)
    (o : outcome B) (w : list event) :
  bind c k h = (o, w) ->
  (exists a w1 w2,
      c h = (Ok a, w1) /\ k a (h ++ calls_of w1) = (o, w2) /\ w = w1 ++ w2)
  \/ (exists e, c h = (Raise e, w) /\ o = Raise e).
Proof.
  unfold bind. destruct (c h) as [[a|e] w1]; cbn; intros E.
  - left. exists a, w1, (snd (k a (h ++ calls_of w1))).
    inversion E; subst. split; [reflexivity|]. split; [|reflexivity].
    destruct (k a (h ++ calls_of w1)); reflexivity.
  - right. exists e. inversion E; subst. split; reflexivity.
Qed.

Ltac inv_pair H := injection H as ? ?; subst; try discriminate.

(** Takes the run [H : c h = (o, w)] apart along the binds of [c]. *)
Ltac run_inv H :=
  lazymatch type of H with
  | bind _ _ _ = _ =>
      let a := fresh "a" in
      let w1 := fresh "w" in
      let w2 := fresh "w" in
      let e := fresh "e" in
      let H1 := fresh "Hrun" in
      let H2 := fresh "Hrun" in
      apply bind_inv in H;
      destruct H as [(a & w1 & w2 & H1 & H2 & ->) | (e & H1 & ->)];
      [ run_inv H1; try run_inv H2 | run_inv H1 ]
  | print _ _ = _ => inv_pair H
  | logging_warning _ _ = _ => inv_pair H
  | logging_error _ _ = _ => inv_pair H
  | emit _ _ = _ => inv_pair H
  | ret _ _ = _ => inv_pair H
  | http _ _ _ = _ => inv_pair H
  | lift _ _ = _ => unfold lift in H; inv_pair H
  | (if ?b then _ else _) _ = _ =>
      let Hb := fresh "Hb" in
      destruct b eqn:Hb; run_inv H
  | _ => idtac
  end.

(** *** One record *)

Lemma wf_end_expiration (S : services) (e : pyval) :
  wf_end e -> exists z, expiration_time S e = Ok z.
Proof.
  intros [Hf | (s & dt & off & -> & Hp & Htz)]; unfold expiration_time.
  - rewrite Hf. eauto.
  - destruct (truthy (PStr s)); [|eauto].
    rewrite Hp. cbn. unfold timestamp. rewrite Htz. cbn. eauto.
Qed.

Lemma resolved_id_of_lookup (r : response) (data ok : pyval) (o : outcome pyval) :
  response_json r = Ok data ->
  py_get data "ok" PNone = Ok ok ->
  truthy ok = true ->
  (user <-! py_getitem data "user" ;; py_getitem user "id") = o ->
  (exists uid, resolved_id r = Some uid /\ o = Ok uid /\ truthy uid = true)
  \/ (resolved_id r = None /\ forall uid, o = Ok uid -> truthy uid = false).
Proof.
  unfold response_json, resolved_id. intros Hj Hok Ht <-.
  destruct (json r) as [v|]; [|discriminate]. inversion Hj; subst.
  destruct data; try discriminate. cbn in *.
  destruct (dict_get d "ok") as [x|]; inversion Hok; subst;
    [|discriminate]. rewrite Ht.
  destruct (dict_get d "user") as [[]|]; cbn;
    try (right; split; [reflexivity | intros ? E; discriminate E]).
  destruct (dict_get d0 "id") as [uid|]; cbn;
    try (right; split; [reflexivity | intros ? E; discriminate E]).
  destruct (truthy uid) eqn:Hu.
  - left. eauto.
  - right. split; [reflexivity|]. intros ? E. inversion E; subst. exact Hu.
Qed.

Lemma resolved_id_not_ok (r : response) (data ok : pyval) :
  response_json r = Ok data ->
  py_get data "ok" PNone = Ok ok ->
  truthy ok = false ->
  resolved_id r = None.
Proof.
  unfold response_json, resolved_id. intros Hj Hok Ht.
  destruct (json r) as [v|]; [|discriminate]. inversion Hj; subst.
  destruct data; try reflexivity. cbn in *.
  destruct (dict_get d "ok") as [x|]; [|reflexivity].
  inversion Hok; subst. rewrite Ht. reflexivity.
Qed.

Lemma resolved_id_raise (r : response) (e : exn) :
  response_json r = Raise e \/
  (exists data, response_json r = Ok data /\ py_get data "ok" PNone = Raise e) ->
  resolved_id r = None.
Proof.
  unfold response_json, resolved_id.
  intros [H | (data & Hj & Hg)]; destruct (json r) as [v|]; try discriminate;
    try reflexivity.
  inversion Hj; subst. destruct data; try reflexivity. discriminate.
Qed.

(** What a lookup does, in terms of the answer it gets: it returns a true id
    exactly when the answer resolves the email. *)
Lemma lambda_get_slack_user_id_inv
    (S : services) (email : pyval) (h : list call)
    (o : outcome pyval) (w : list event) :
  Lambda.get_slack_user_id S email h = (o, w) ->
  (exists uid,
      resolved_id (slack_lookup_by_email S h email) = Some uid /\ o = Ok uid
      /\ truthy uid = true
      /\ w = [Print (MsgLookingUp email); Http (SlackLookup email)])
  \/ (resolved_id (slack_lookup_by_email S h email) = None
      /\ (forall uid, o = Ok uid -> truthy uid = false)
      /\ (w = [Print (MsgLookingUp email); Http (SlackLookup email)]
          \/ w = [Print (MsgLookingUp email); Http (SlackLookup email);
                  Logging WARNING (MsgUnableToFind email)])).
Proof.
  unfold Lambda.get_slack_user_id. intros H. run_inv H;
    cbn in *; rewrite ?app_nil_r in *.
  - match goal with
    | Hj : response_json _ = Ok ?d, Hg : py_get ?d _ _ = Ok ?ok,
      Ht : truthy ?ok = true |- _ =>
        destruct (resolved_id_of_lookup _ _ _ _ Hj Hg Ht eq_refl)
          as [(uid & Hr & Ho & Hu) | (Hr & Ho)]
    end.
    + left. exists uid. auto.
    + right. auto.
  - right. split; [eapply resolved_id_not_ok; eassumption|].
    split; [|auto]. intros uid E. inversion E. reflexivity.
  - right. split; [eapply resolved_id_raise; eauto|].
    split; [intros ? E; discriminate E | auto].
  - right. split; [eapply resolved_id_raise; eauto|].
    split; [intros ? E; discriminate E | auto].
Qed.

Lemma main_get_slack_user_id_inv
    (S : services) (email : pyval) (h : list call)
    (o : outcome pyval) (w : list event) :
  Main.get_slack_user_id S email h = (o, w) ->
  (exists uid,
      resolved_id (slack_lookup_by_email S h email) = Some uid /\ o = Ok uid
      /\ truthy uid = true
      /\ w = [Http (SlackLookup email)])
  \/ (resolved_id (slack_lookup_by_email S h email) = None
      /\ (forall uid, o = Ok uid -> truthy uid = false)
      /\ (w = [Http (SlackLookup email)]
          \/ exists err, w = [Http (SlackLookup email);
                              Print (MsgCouldNotFind email err)])).
Proof.
  unfold Main.get_slack_user_id. intros H. run_inv H;
    cbn in *; rewrite ?app_nil_r in *.
  - match goal with
    | Hj : response_json _ = Ok ?d, Hg : py_get ?d _ _ = Ok ?ok,
      Ht : truthy ?ok = true |- _ =>
        destruct (resolved_id_of_lookup _ _ _ _ Hj Hg Ht eq_refl)
          as [(uid & Hr & Ho & Hu) | (Hr & Ho)]
    end.
    + left. exists uid. auto.
    + right. auto.
  - right. split; [eapply resolved_id_not_ok; eassumption|].
    split; [|eauto]. intros uid E. inversion E. reflexivity.
  - right. split; [eapply resolved_id_not_ok; eassumption|].
    split; [intros ? E; discriminate E | auto].
  - right. split; [eapply resolved_id_raise; eauto|].
    split; [intros ? E; discriminate E | auto].
  - right. split; [eapply resolved_id_raise; eauto|].
    split; [intros ? E; discriminate E | auto].
Qed.

Lemma lambda_set_user_status_inv
    (S : services) (uid : pyval) (text emoji : string) (exp : Z) (h : list call)
    (o : outcome unit) (w : list event) :
  Lambda.set_user_status S uid text emoji exp h = (o, w) ->
  exists m,
    w = Print (MsgUpdating uid text emoji exp)
        :: Http (SlackProfileSet uid text emoji exp) :: m
    /\ (m = [] \/ m = [Print (MsgUpdated uid text)]
        \/ exists b, m = [Logging ERROR (MsgFailedToUpdate uid b)]).
Proof.
  unfold Lambda.set_user_status. intros H. run_inv H; cbn;
    eexists; (split; [reflexivity | eauto 6]).
Qed.

Lemma main_set_user_status_inv
    (S : services) (uid : pyval) (text emoji : string) (exp : Z) (h : list call)
    (o : outcome unit) (w : list event) :
  Main.set_user_status S uid text emoji exp h = (o, w) ->
  exists m,
    w = Http (SlackProfileSet uid text emoji exp) :: m
    /\ (m = [] \/ m = [Print (MsgUpdated uid text)]
        \/ exists b, m = [Print (MsgFailedToUpdate uid b)]).
Proof.
  unfold Main.set_user_status. intros H. run_inv H; cbn;
    eexists; (split; [reflexivity | eauto 6]).
Qed.

Lemma in_STATUS_MAP_inv (pol : pyval) (o : outcome bool) :
  in_STATUS_MAP pol = o ->
  match o with
  | Ok true => exists e, status_entry pol = Some e
  | _ => status_entry pol = None
  end.
Proof.
  unfold in_STATUS_MAP, status_entry. intros <-.
  destruct pol; cbn [hashable]; try reflexivity.
  destruct (assoc s STATUS_MAP); eauto.
Qed.

Lemma STATUS_MAP_getitem_inv (pol : pyval) (o : outcome (string * string)) :
  STATUS_MAP_getitem pol = o ->
  match o with
  | Ok e => status_entry pol = Some e
  | Raise _ => status_entry pol = None
  end.
Proof.
  unfold STATUS_MAP_getitem, status_entry. intros <-.
  destruct pol; cbn [hashable]; try reflexivity.
  destruct (assoc s STATUS_MAP); reflexivity.
Qed.

(** Replaces the runs of the callees by what the inversion lemmas say. *)
Ltac use_inv :=
  repeat match goal with
  | H : Lambda.get_slack_user_id _ _ _ = _ |- _ =>
      cbn [calls_of app] in H; rewrite ?app_nil_r in H;
      apply lambda_get_slack_user_id_inv in H;
      destruct H as [(? & ? & ? & ? & ?) | (? & ? & [? | ?])]; subst
  | H : Main.get_slack_user_id _ _ _ = _ |- _ =>
      cbn [calls_of app] in H; rewrite ?app_nil_r in H;
      apply main_get_slack_user_id_inv in H;
      destruct H as [(? & ? & ? & ? & ?) | (? & ? & [? | (? & ?)])]; subst
  | H : Lambda.set_user_status _ _ _ _ _ _ = _ |- _ =>
      apply lambda_set_user_status_inv in H;
      destruct H as (? & ? & [? | [? | (? & ?)]]); subst
  | H : Main.set_user_status _ _ _ _ _ _ = _ |- _ =>
      apply main_set_user_status_inv in H;
      destruct H as (? & ? & [? | [? | (? & ?)]]); subst
  | H : in_STATUS_MAP _ = _ |- _ =>
      apply in_STATUS_MAP_inv in H; cbn beta iota in H
  | H : STATUS_MAP_getitem _ = _ |- _ =>
      apply STATUS_MAP_getitem_inv in H; cbn beta iota in H
  | H : exists _, status_entry _ = Some _ |- _ => destruct H as [? H]
  | H : Ok _ = Ok _ |- _ => injection H as H; subst
  | H : forall uid, Ok ?a = Ok uid -> truthy uid = false |- _ =>
      specialize (H a eq_refl)
  end.



(** *** The loop over the records *)

Lemma bind_ok {A B : Type} (c : M A) (k : A -> M B) (h : list call)
    (a : A) (w : list event) :
  c h = (Ok a, w) ->
  bind c k h
  = (fst (k a (h ++ calls_of w)), w ++ snd (k a (h ++ calls_of w))).
Proof.
  intros E. unfold bind. rewrite E. reflexivity.
Qed.

Lemma bind_raise {A B : Type} (c : M A) (k : A -> M B) (h : list call)
    (e : exn) (w : list event) :
  c h = (Raise e, w) -> bind c k h = (Raise e, w).
Proof.
  intros E. unfold bind. rewrite E. reflexivity.
Qed.

(** A record whose processing returns lets the loop go on with the rest. *)
Lemma for_each_continues {A : Type} (body : A -> M unit) (a : A) (l : list A)
    (h : list call) (w : list event) :
  body a h = (Ok tt, w) ->
  for_each body (a :: l) h
  = (fst (for_each body l (h ++ calls_of w)),
     w ++ snd (for_each body l (h ++ calls_of w))).
Proof.
  intros E. exact (bind_ok (body a) (fun _ => for_each body l) h tt w E).
Qed.

(** A record whose processing raises ends the loop. *)
Lemma for_each_stops {A : Type} (body : A -> M unit) (a : A) (l : list A)
    (h : list call) (e : exn) (w : list event) :
  body a h = (Raise e, w) -> for_each body (a :: l) h = (Raise e, w).
Proof.
  intros E. exact (bind_raise (body a) (fun _ => for_each body l) h e w E).
Qed.

(** *** Unknown policy *)

Lemma lambda_unknown_policy_run (S : services) (h : list call)
    (u : Lambda.time_off_record) :
  wf_end (Lambda.end_ u) ->
  hashable (Lambda.policy_name u) = true ->
  status_entry (Lambda.policy_name u) = None ->
  Lambda.process_user S u h
  = (Ok tt, [Print (MsgProcessing (Lambda.email u) (Lambda.policy_name u))]).
Proof.
  intros Hen Hh Hs. destruct (wf_end_expiration S _ Hen) as [z Hz].
  unfold Lambda.process_user, in_STATUS_MAP. rewrite Hz, Hh, Hs. reflexivity.
Qed.

Lemma main_unknown_policy_run (S : services) (h : list call)
    (u : Main.time_off_record) :
  wf_end (Main.end_ u) ->
  hashable (Main.policy_name u) = true ->
  status_entry (Main.policy_name u) = None ->
  Main.process_user S u h
  = (Ok tt, [Print (MsgUnknownPolicy (Main.policy_name u) (Main.email u))]).
Proof.
  intros Hen Hh Hs. destruct (wf_end_expiration S _ Hen) as [z Hz].
  unfold Main.process_user, in_STATUS_MAP. rewrite Hz, Hh, Hs. reflexivity.
Qed.

(** C3, evaluated.  With a first record whose policy is not in the table and
    a second one on vacation, both variants skip the first record without an
    update call and go on to update the second; the standalone variant
    prints its unknown-policy warning, the scheduled variant emits no warning
    at all for the skipped record. *)
Theorem unknown_policy_warning_only_in_main :
  Lambda.update_slack_status_for_time_off_users unknown_then_vacation []
  = (Ok tt,
     [Print MsgStart; Print MsgFetching;
      Http (ClockifyPost (time_off_payload unknown_then_vacation));
      Print (MsgFound 2);
      Print (MsgProcessing (PStr "b@x.com") (PStr "Unknown"));
      Print (MsgProcessing (PStr "a@x.com") (PStr "Vacations"));
      Print (MsgLookingUp (PStr "a@x.com"));
      Http (SlackLookup (PStr "a@x.com"));
      Print (MsgSlackUserId (PStr "a@x.com") (PStr "U1"));
      Print (MsgUpdating (PStr "U1") "On Holiday" ":palm_tree:" 1748908799);
      Http (SlackProfileSet (PStr "U1") "On Holiday" ":palm_tree:" 1748908799);
      Print (MsgUpdated (PStr "U1") "On Holiday")])
  /\ count is_warning
       (snd (Lambda.update_slack_status_for_time_off_users
               unknown_then_vacation [])) = 0%nat
  /\ Main.update_slack_status_for_time_off_users unknown_then_vacation []
     = (Ok tt,
        [Http (ClockifyPost (time_off_payload unknown_then_vacation));
         Print (MsgUpdatingFor 2);
         Print (MsgUnknownPolicy (PStr "Unknown") (PStr "b@x.com"));
         Http (SlackLookup (PStr "a@x.com"));
         Http (SlackProfileSet (PStr "U1") "On Holiday" ":palm_tree:" 1748908799);
         Print (MsgUpdated (PStr "U1") "On Holiday")])
  /\ count is_warning
       (snd (Main.update_slack_status_for_time_off_users
               unknown_then_vacation [])) = 1%nat.
Proof.
  repeat split; vm_compute; reflexivity.
Qed.

(** *** Email that does not resolve *)

Lemma known_policy_in_table (pol : pyval) :
  status_entry pol <> None ->
  exists e, in_STATUS_MAP pol = Ok true /\ STATUS_MAP_getitem pol = Ok e.
Proof.
  unfold in_STATUS_MAP, STATUS_MAP_getitem, status_entry.
  destruct pol; try congruence. cbn [hashable].
  destruct (assoc s STATUS_MAP); [eauto | congruence].
Qed.

(** The claim of C4 fails in the scheduled variant: an email that does not
    resolve is recorded by two warnings there, one of the lookup and one of
    the loop. *)
Lemma lambda_unresolved_email_two_warnings :
  count is_warning
    (snd (Lambda.update_slack_status_for_time_off_users vacation_not_found []))
  = 2%nat
  /\ count is_warning
       (snd (Lambda.update_slack_status_for_time_off_users
               vacation_not_found [])) <> 1%nat.
Proof.
  split; vm_compute; [reflexivity | discriminate].
Qed.

(** C4, amended.  For a record whose policy is in the table and whose lookup
    answer is not ok, neither variant issues an update call and both return
    to the loop; the standalone variant prints exactly one warning (in the
    lookup), the scheduled variant records two (one in the lookup, one in the
    loop). *)
Theorem unresolved_email_is_skipped
    (S : services) (h : list call) (em nm st en sty pol : pyval)
    (d : list (string * pyval)) :
  wf_end en ->
  status_entry pol <> None ->
  json (slack_lookup_by_email S h em) = Some (PDict d) ->
  truthy (or_default (dict_get d "ok") PNone) = false ->
  Lambda.process_user S (Lambda.mkRecord em nm st en pol) h
  = (Ok tt,
     [Print (MsgProcessing em pol); Print (MsgLookingUp em);
      Http (SlackLookup em); Logging WARNING (MsgUnableToFind em);
      Print (MsgSlackUserId em PNone); Logging WARNING (MsgSkipping em)])
  /\ Main.process_user S (Main.mkRecord em nm st en sty pol) h
     = (Ok tt,
        [Http (SlackLookup em);
         Print (MsgCouldNotFind em (or_default (dict_get d "error") PNone))])
  /\ count is_update
       (snd (Lambda.process_user S (Lambda.mkRecord em nm st en pol) h)) = 0%nat
  /\ count is_update
       (snd (Main.process_user S (Main.mkRecord em nm st en sty pol) h)) = 0%nat
  /\ count is_warning
       (snd (Lambda.process_user S (Lambda.mkRecord em nm st en pol) h)) = 2%nat
  /\ count is_warning
       (snd (Main.process_user S (Main.mkRecord em nm st en sty pol) h)) = 1%nat
  /\ (forall rest,
        fst (for_each (Lambda.process_user S)
                      (Lambda.mkRecord em nm st en pol :: rest) h)
        = fst (for_each (Lambda.process_user S) rest (h ++ [SlackLookup em])))
  /\ (forall rest,
        fst (for_each (Main.process_user S)
                      (Main.mkRecord em nm st en sty pol :: rest) h)
        = fst (for_each (Main.process_user S) rest (h ++ [SlackLookup em]))).
Proof.
  intros Hen Hpol Hj Hok.
  destruct (wf_end_expiration S en Hen) as [z Hz].
  destruct (known_policy_in_table pol Hpol) as (e & Hin & Hget).
  assert (HL : Lambda.process_user S (Lambda.mkRecord em nm st en pol) h
    = (Ok tt,
       [Print (MsgProcessing em pol); Print (MsgLookingUp em);
        Http (SlackLookup em); Logging WARNING (MsgUnableToFind em);
        Print (MsgSlackUserId em PNone); Logging WARNING (MsgSkipping em)])).
  { unfold Lambda.process_user, Lambda.get_slack_user_id.
    cbn [Lambda.email Lambda.end_ Lambda.policy_name].
    rewrite Hz, Hin. run_m. rewrite Hj. cbn.
    unfold or_default in Hok. destruct (dict_get d "ok"); cbn in *;
      rewrite ?Hok; reflexivity. }
  assert (HM : Main.process_user S (Main.mkRecord em nm st en sty pol) h
     = (Ok tt,
        [Http (SlackLookup em);
         Print (MsgCouldNotFind em (or_default (dict_get d "error") PNone))])).
  { unfold Main.process_user, Main.get_slack_user_id.
    cbn [Main.email Main.end_ Main.policy_name].
    rewrite Hz, Hin, Hget. run_m. rewrite Hj. cbn.
    unfold or_default in Hok. destruct (dict_get d "ok"); cbn in *;
      rewrite ?Hok; reflexivity. }
  rewrite HL, HM. repeat split.
  - intros rest. rewrite (for_each_continues _ _ rest _ _ HL). reflexivity.
  - intros rest. rewrite (for_each_continues _ _ rest _ _ HM). reflexivity.
Qed.

Lemma unresolved_email_is_skipped_witness :
  Main.process_user vacation_not_found
    (Main.mkRecord (PStr "c@x.com") (PStr "N") PNone end_of_day PNone
                   (PStr "Vacations")) []
  = (Ok tt,
     [Http (SlackLookup (PStr "c@x.com"));
      Print (MsgCouldNotFind (PStr "c@x.com") (PStr "users_not_found"))]).
Proof.
  apply (unresolved_email_is_skipped vacation_not_found []
           (PStr "c@x.com") (PStr "N") PNone end_of_day PNone (PStr "Vacations")
           [("ok", PBool false); ("error", PStr "users_not_found")]).
  - right. exists "2025-06-02T23:59:59.999999Z",
             (mkDatetime 2025 6 2 23 59 59 999999 (Some 0)), 0.
    repeat split; vm_compute; reflexivity.
  - vm_compute. discriminate.
  - reflexivity.
  - reflexivity.
Defined.

(** *** The fetch *)

Ltac split_leaves :=
  repeat match goal with
         | |- context [match dict_get ?d ?k with _ => _ end] =>
             destruct (dict_get d k) as [?|]; cbn
         end.

Lemma lambda_normalize_request (req : pyval) :
  request_object req = true ->
  Lambda.normalize req = Ok (lambda_record_of req).
Proof.
  unfold request_object, optional_object, lambda_record_of, Lambda.normalize.
  destruct req; try discriminate. cbn.
  destruct (dict_get d "timeOffPeriod") as [[]|]; try discriminate; cbn;
    [destruct (dict_get d0 "period") as [[]|]; try discriminate; cbn|];
    intros _; split_leaves; reflexivity.
Qed.

Lemma main_normalize_request (req : pyval) :
  request_object req = true ->
  status_object req = true ->
  Main.normalize req = Ok (main_record_of req).
Proof.
  unfold request_object, status_object, optional_object, main_record_of,
    Main.normalize.
  destruct req; try discriminate. cbn.
  destruct (dict_get d "status") as [[]|]; try discriminate;
  (destruct (dict_get d "timeOffPeriod") as [[| | | | |? |tp]|];
     try discriminate; cbn;
    [destruct (dict_get tp "period") as [[]|]; try discriminate; cbn|];
    intros _ _; split_leaves; reflexivity).
Qed.

Lemma comprehension_map {A B : Type} (f : A -> outcome B) (g : A -> B)
    (P : A -> Prop) (l : list A) :
  (forall a, P a -> f a = Ok (g a)) ->
  Forall P l ->
  comprehension f l = Ok (map g l).
Proof.
  intros Hf. induction 1 as [|a l Ha Hl IH]; cbn; [reflexivity|].
  rewrite (Hf a Ha), IH. reflexivity.
Qed.

Lemma forallb_Forall {A : Type} (p : A -> bool) (l : list A) :
  forallb p l = true -> Forall (fun a => p a = true) l.
Proof.
  rewrite forallb_forall, Forall_forall. trivial.
Qed.

(** C8.  On a 200 answer whose body holds a [requests] list of request
    objects, [get_time_off_requests] returns the list of their normalized
    records: one per request, in the order of the answer, each field taken
    from the field of the request the specification names; the end of a
    request without an end date is [None]. *)
Theorem get_time_off_requests_normalizes
    (S : services) (h : list call) (d : list (string * pyval))
    (reqs : list pyval) :
  status_code (clockify_time_off S h (time_off_payload S)) = 200 ->
  json (clockify_time_off S h (time_off_payload S)) = Some (PDict d) ->
  dict_get d "requests" = Some (PList reqs) ->
  forallb request_object reqs = true ->
  Lambda.get_time_off_requests S h
  = (Ok (map lambda_record_of reqs),
     [Print MsgFetching; Http (ClockifyPost (time_off_payload S))])
  /\ (forallb status_object reqs = true ->
      fst (Main.get_time_off_requests S h) = Ok (map main_record_of reqs))
  /\ List.length (map lambda_record_of reqs) = List.length reqs
  /\ List.length (map main_record_of reqs) = List.length reqs
  /\ (forall i req,
        nth_error reqs i = Some req ->
        nth_error (map lambda_record_of reqs) i = Some (lambda_record_of req)
        /\ nth_error (map main_record_of reqs) i = Some (main_record_of req))
  /\ (forall req,
        lookup_path req ["timeOffPeriod"; "period"; "end"] = None ->
        Lambda.end_ (lambda_record_of req) = PNone
        /\ Main.end_ (main_record_of req) = PNone).
Proof.
  intros Hc Hj Hr Hobj. apply Z.eqb_eq in Hc.
  split; [|split; [|split; [|split; [|split]]]].
  - unfold Lambda.get_time_off_requests. run_m. rewrite Hc, Hj. cbn.
    rewrite Hr. cbn.
    rewrite (comprehension_map _ _ _ _ lambda_normalize_request
               (forallb_Forall _ _ Hobj)).
    reflexivity.
  - intros Hst. unfold Main.get_time_off_requests. run_m. rewrite Hc, Hj. cbn.
    rewrite Hr. cbn. destruct reqs as [|req reqs']; [reflexivity|].
    cbn [truthy negb]. cbn [fst lift py_iter obind].
    rewrite (comprehension_map Main.normalize main_record_of
               (fun r => request_object r = true /\ status_object r = true)
               (req :: reqs')).
    + reflexivity.
    + intros a [Ha Hb]. apply main_normalize_request; assumption.
    + rewrite Forall_forall. rewrite forallb_forall in Hobj, Hst. auto.
  - apply length_map.
  - apply length_map.
  - intros i req Hn. rewrite !nth_error_map, Hn. split; reflexivity.
  - intros req Hn. unfold lambda_record_of, main_record_of.
    cbn [Lambda.end_ Main.end_]. rewrite Hn. split; reflexivity.
Qed.

Lemma get_time_off_requests_normalizes_witness :
  Lambda.get_time_off_requests unknown_then_vacation []
  = (Ok [Lambda.mkRecord (PStr "b@x.com") (PStr "N")
           (PStr "2025-06-02T00:00:00Z") end_of_day (PStr "Unknown");
         Lambda.mkRecord (PStr "a@x.com") (PStr "N")
           (PStr "2025-06-02T00:00:00Z") end_of_day (PStr "Vacations")],
     [Print MsgFetching;
      Http (ClockifyPost (time_off_payload unknown_then_vacation))]).
Proof.
  apply (get_time_off_requests_normalizes unknown_then_vacation []
           [("requests",
             PList [time_off_request "b@x.com" "Unknown" end_of_day;
                    time_off_request "a@x.com" "Vacations" end_of_day])]
           [time_off_request "b@x.com" "Unknown" end_of_day;
            time_off_request "a@x.com" "Vacations" end_of_day]);
    reflexivity.
Defined.

(** *** Runs that complete *)

Lemma fst_bind {A B : Type} (c : M A) (k : A -> M B) (h : list call) :
  fst (bind c k h)
  = match fst (c h) with
    | Ok a => fst (k a (h ++ calls_of (snd (c h))))
    | Raise e => Raise e
    end.
Proof.
  unfold bind. destruct (fst (c h)); reflexivity.
Qed.

Lemma wf_lookup_outcome (r : response) :
  wf_lookup_response r ->
  exists data ok,
    response_json r = Ok data /\ py_get data "ok" PNone = Ok ok
    /\ (truthy ok = true ->
        exists uid,
          (user <-! py_getitem data "user" ;; py_getitem user "id") = Ok uid).
Proof.
  intros (d & Hj & Hu). unfold response_json. rewrite Hj.
  exists (PDict d), (or_default (dict_get d "ok") PNone).
  split; [reflexivity|]. split.
  - cbn. destruct (dict_get d "ok"); reflexivity.
  - intros Ht. destruct (Hu Ht) as (ud & uid & Hud & Hid).
    exists uid. cbn. rewrite Hud. cbn. rewrite Hid. reflexivity.
Qed.

Lemma lambda_get_slack_user_id_returns (S : services) (email : pyval)
    (h : list call) :
  wf_lookup_response (slack_lookup_by_email S h email) ->
  exists v, fst (Lambda.get_slack_user_id S email h) = Ok v.
Proof.
  intros Hwf. destruct (wf_lookup_outcome _ Hwf) as (data & ok & Hj & Hg & Hu).
  unfold Lambda.get_slack_user_id. run_k. rewrite Hj. cbn. rewrite Hg. cbn.
  destruct (truthy ok); cbn; [|eauto].
  destruct (Hu eq_refl) as [uid ->]. eauto.
Qed.

Lemma main_get_slack_user_id_returns (S : services) (email : pyval)
    (h : list call) :
  wf_lookup_response (slack_lookup_by_email S h email) ->
  exists v, fst (Main.get_slack_user_id S email h) = Ok v.
Proof.
  intros Hwf. destruct (wf_lookup_outcome _ Hwf) as (data & ok & Hj & Hg & Hu).
  unfold Main.get_slack_user_id. run_k. rewrite Hj. cbn. rewrite Hg. cbn.
  destruct (truthy ok); cbn.
  - destruct (Hu eq_refl) as [uid ->]. eauto.
  - destruct Hwf as (d & Hd & _). unfold response_json in Hj.
    rewrite Hd in Hj. injection Hj as <-. cbn. eauto.
Qed.

Lemma lambda_set_user_status_returns (S : services) (uid : pyval)
    (text emoji : string) (exp : Z) (h : list call) :
  wf_update_response (slack_profile_set S h uid text emoji exp) ->
  fst (Lambda.set_user_status S uid text emoji exp h) = Ok tt.
Proof.
  intros (d & Hj). unfold Lambda.set_user_status. run_m. rewrite Hj. cbn.
  destruct (status_code _ =? 200); cbn; [|reflexivity].
  destruct (truthy _); reflexivity.
Qed.

Lemma main_set_user_status_returns (S : services) (uid : pyval)
    (text emoji : string) (exp : Z) (h : list call) :
  wf_update_response (slack_profile_set S h uid text emoji exp) ->
  fst (Main.set_user_status S uid text emoji exp h) = Ok tt.
Proof.
  intros (d & Hj). unfold Main.set_user_status. run_m. rewrite Hj. cbn.
  destruct (status_code _ =? 200); cbn; [|reflexivity].
  destruct (truthy _); reflexivity.
Qed.

Lemma hashable_in_STATUS_MAP (pol : pyval) :
  hashable pol = true ->
  (in_STATUS_MAP pol = Ok false)
  \/ (exists e, in_STATUS_MAP pol = Ok true /\ STATUS_MAP_getitem pol = Ok e).
Proof.
  unfold in_STATUS_MAP, STATUS_MAP_getitem. intros ->.
  destruct (status_entry pol); eauto.
Qed.

(** Moves [fst] through the binds, past what has already been evaluated. *)
Ltac fst_step :=
  repeat first
    [ rewrite fst_bind
    | progress cbn [print logging_warning emit lift ret fst snd calls_of app]
    | rewrite app_nil_r ].

Lemma lambda_process_user_returns (S : services) (u : Lambda.time_off_record)
    (h : list call) :
  wf_services S -> wf_lambda_record u ->
  fst (Lambda.process_user S u h) = Ok tt.
Proof.
  intros (_ & Hlook & Hupd) [Hen Hh].
  destruct (wf_end_expiration S _ Hen) as [z Hz].
  unfold Lambda.process_user. fst_step. rewrite Hz. fst_step.
  destruct (hashable_in_STATUS_MAP _ Hh) as [-> | (e & -> & He)];
    fst_step; [reflexivity|].
  destruct (lambda_get_slack_user_id_returns S (Lambda.email u) h (Hlook _ _))
    as [v ->].
  fst_step. destruct (truthy v); fst_step; [|reflexivity].
  rewrite He. fst_step.
  apply lambda_set_user_status_returns, Hupd.
Qed.

Lemma main_process_user_returns (S : services) (u : Main.time_off_record)
    (h : list call) :
  wf_services S -> wf_main_record u ->
  fst (Main.process_user S u h) = Ok tt.
Proof.
  intros (_ & Hlook & Hupd) [Hen Hh].
  destruct (wf_end_expiration S _ Hen) as [z Hz].
  unfold Main.process_user. fst_step. rewrite Hz. fst_step.
  destruct (hashable_in_STATUS_MAP _ Hh) as [-> | (e & -> & He)];
    fst_step; [reflexivity|].
  rewrite He. fst_step.
  destruct (main_get_slack_user_id_returns S (Main.email u) h (Hlook _ _))
    as [v ->].
  destruct (truthy v); [|reflexivity].
  apply main_set_user_status_returns, Hupd.
Qed.

Lemma for_each_returns {A : Type} (body : A -> M unit) (P : A -> Prop)
    (l : list A) :
  (forall a h, P a -> fst (body a h) = Ok tt) ->
  Forall P l ->
  forall h, fst (for_each body l h) = Ok tt.
Proof.
  intros Hbody. induction 1 as [|a l Ha Hl IH]; intros h; [reflexivity|].
  cbn [for_each]. rewrite fst_bind, (Hbody a h Ha). apply IH.
Qed.

Lemma wf_request_lambda_record (req : pyval) :
  wf_request req -> wf_lambda_record (lambda_record_of req).
Proof.
  intros (_ & _ & Hen & p & Hp & Hh). split; cbn [lambda_record_of Lambda.end_
    Lambda.policy_name]; [exact Hen|]. rewrite Hp. exact Hh.
Qed.

Lemma wf_request_main_record (req : pyval) :
  wf_request req -> wf_main_record (main_record_of req).
Proof.
  intros (_ & _ & Hen & p & Hp & Hh). split; cbn [main_record_of Main.end_
    Main.policy_name]; [exact Hen|]. rewrite Hp. exact Hh.
Qed.

Lemma Forall_map_intro {A B : Type} (f : A -> B) (P : A -> Prop) (Q : B -> Prop)
    (l : list A) :
  (forall a, P a -> Q (f a)) -> Forall P l -> Forall Q (map f l).
Proof.
  intros H. induction 1; cbn; constructor; auto.
Qed.

Lemma lambda_get_time_off_requests_returns (S : services) (h : list call) :
  wf_services S ->
  exists recs,
    fst (Lambda.get_time_off_requests S h) = Ok recs
    /\ Forall wf_lambda_record recs.
Proof.
  intros (Hf & _ & _). specialize (Hf h (time_off_payload S)).
  unfold Lambda.get_time_off_requests. fst_step. unfold http at 1 2.
  cbn [fst snd calls_of app].
  destruct (status_code _ =? 200) eqn:Hc; fst_step; [|eauto].
  apply Z.eqb_eq in Hc. destruct (Hf Hc) as (d & Hj & Hreqs).
  unfold response_json. rewrite Hj. fst_step. cbn [py_get obind].
  destruct (dict_get d "requests") as [[| | | | |reqs|]|]; try contradiction.
  - cbn [py_iter obind].
    rewrite (comprehension_map Lambda.normalize lambda_record_of wf_request).
    + eexists. split; [reflexivity|].
      apply (Forall_map_intro _ _ _ _ wf_request_lambda_record Hreqs).
    + intros a Ha. apply lambda_normalize_request, Ha.
    + exact Hreqs.
  - cbn. eauto.
Qed.

Lemma main_get_time_off_requests_returns (S : services) (h : list call) :
  wf_services S ->
  exists recs,
    fst (Main.get_time_off_requests S h) = Ok recs
    /\ Forall wf_main_record recs.
Proof.
  intros (Hf & _ & _). specialize (Hf h (time_off_payload S)).
  unfold Main.get_time_off_requests. fst_step. unfold http at 1 2.
  cbn [fst snd calls_of app].
  destruct (status_code _ =? 200) eqn:Hc; fst_step; [|eauto].
  apply Z.eqb_eq in Hc. destruct (Hf Hc) as (d & Hj & Hreqs).
  unfold response_json. rewrite Hj. fst_step. cbn [py_get].
  destruct (dict_get d "requests") as [[| | | | |reqs|]|]; try contradiction.
  - destruct reqs as [|req reqs]; cbn [truthy negb]; fst_step; [eauto|].
    cbn [py_iter obind].
    rewrite (comprehension_map Main.normalize main_record_of wf_request).
    + eexists. split; [reflexivity|].
      apply (Forall_map_intro _ _ _ _ wf_request_main_record Hreqs).
    + intros a (Ha & Hb & _). apply main_normalize_request; assumption.
    + exact Hreqs.
  - cbn [truthy negb]. fst_step. eauto.
Qed.

(** The claim of C2 fails: an answer of the chat service that is not JSON
    makes the run raise, and [lambda_handler] returns nothing. *)
Lemma lambda_handler_raises_on_non_json_lookup :
  fst (Lambda.lambda_handler vacation_lookup_down []) = Raise JSONDecodeError
  /\ fst (Main.update_slack_status_for_time_off_users vacation_lookup_down [])
     = Raise JSONDecodeError.
Proof.
  split; vm_compute; reflexivity.
Qed.

(** C2, amended.  When the services answer as their interfaces describe
    (well-formed requests, lookup answers and update answers), the run
    completes without raising, whatever the number of records skipped or of
    updates refused, and [lambda_handler] returns the envelope with status
    code 200 and the success message. *)
Theorem well_formed_run_completes (S : services) (h : list call) :
  wf_services S ->
  fst (Lambda.lambda_handler S h)
  = Ok (Lambda.mkEnvelope 200 "Lambda function completed successfully!")
  /\ fst (Lambda.update_slack_status_for_time_off_users S h) = Ok tt
  /\ fst (Main.update_slack_status_for_time_off_users S h) = Ok tt.
Proof.
  intros Hwf.
  assert (HL : fst (Lambda.update_slack_status_for_time_off_users S h) = Ok tt).
  { unfold Lambda.update_slack_status_for_time_off_users. fst_step.
    destruct (lambda_get_time_off_requests_returns S h Hwf) as (recs & -> & Hr).
    fst_step.
    apply (for_each_returns _ wf_lambda_record); [|exact Hr].
    intros a h' Ha. apply lambda_process_user_returns; assumption. }
  split; [|split].
  - unfold Lambda.lambda_handler. fst_step. rewrite HL. fst_step. reflexivity.
  - exact HL.
  - unfold Main.update_slack_status_for_time_off_users. fst_step.
    destruct (main_get_time_off_requests_returns S h Hwf) as (recs & -> & Hr).
    destruct recs as [|u recs]; [reflexivity|]. fst_step.
    apply (for_each_returns _ wf_main_record); [|exact Hr].
    intros a h' Ha. apply main_process_user_returns; assumption.
Qed.

Lemma end_of_day_wf : wf_end end_of_day.
Proof.
  right. exists "2025-06-02T23:59:59.999999Z",
           (mkDatetime 2025 6 2 23 59 59 999999 (Some 0)), 0.
  repeat split; vm_compute; reflexivity.
Qed.

Lemma time_off_request_wf (email policy : string) :
  wf_request (time_off_request email policy end_of_day).
Proof.
  split; [reflexivity|]. split; [reflexivity|].
  split; [exact end_of_day_wf|]. eexists. split; reflexivity.
Qed.

Lemma unknown_then_vacation_wf : wf_services unknown_then_vacation.
Proof.
  split; [|split].
  - intros h p _. eexists. split; [reflexivity|]. cbn.
    repeat (constructor; [apply time_off_request_wf|]). constructor.
  - intros h e. eexists. split; [reflexivity|]. intros _.
    exists [("id", PStr "U1")], (PStr "U1"). split; reflexivity.
  - intros h u t e x. eexists. reflexivity.
Qed.

Lemma well_formed_run_completes_witness :
  fst (Lambda.lambda_handler unknown_then_vacation [])
  = Ok (Lambda.mkEnvelope 200 "Lambda function completed successfully!").
Proof.
  apply (well_formed_run_completes unknown_then_vacation []).
  exact unknown_then_vacation_wf.
Defined.

(** *** A request without a policy name *)

(** C10, evaluated.  A request without [policyName] is normalized with the
    empty mapping as its policy name; the membership test on the table then
    raises [TypeError] (a dict cannot be hashed), which ends the run in both
    variants: no update call is issued, for this record or for the one after
    it, and [lambda_handler] returns nothing. *)
Theorem missing_policy_name_raises :
  Lambda.normalize (request_without_policy "b@x.com")
  = Ok (Lambda.mkRecord (PStr "b@x.com") (PStr "N")
          (PStr "2025-06-02T00:00:00Z") end_of_day (PDict []))
  /\ status_entry (PDict []) = None
  /\ in_STATUS_MAP (PDict []) = Raise TypeError
  /\ Lambda.lambda_handler missing_policy_then_vacation []
     = (Raise TypeError,
        [Print MsgLambdaStarted; Print MsgStart; Print MsgFetching;
         Http (ClockifyPost (time_off_payload missing_policy_then_vacation));
         Print (MsgFound 2);
         Print (MsgProcessing (PStr "b@x.com") (PDict []))])
  /\ Main.update_slack_status_for_time_off_users missing_policy_then_vacation []
     = (Raise TypeError,
        [Http (ClockifyPost (time_off_payload missing_policy_then_vacation));
         Print (MsgUpdatingFor 2)])
  /\ count is_update
       (snd (Lambda.lambda_handler missing_policy_then_vacation [])) = 0%nat
  /\ count is_lookup
       (snd (Lambda.lambda_handler missing_policy_then_vacation [])) = 0%nat.
Proof.
  repeat split; vm_compute; reflexivity.
Qed.

(** *** The query window *)

Lemma length_append (a b : string) :
  String.length (a ++ b)%string = (String.length a + String.length b)%nat.
Proof.
  induction a as [|c a IH]; cbn; [reflexivity | rewrite IH; reflexivity].
Qed.

Lemma substring_all (s : string) : substring 0 (String.length s) s = s.
Proof.
  induction s as [|c s IH]; cbn; [reflexivity | rewrite IH; reflexivity].
Qed.

Lemma substring_prefix (a b : string) :
  substring 0 (String.length a) (a ++ b)%string = a.
Proof.
  induction a as [|c a IH]; cbn.
  - destruct b; reflexivity.
  - rewrite IH. reflexivity.
Qed.

Lemma substring_skip (a b : string) (k m : nat) :
  substring (String.length a + k) m (a ++ b)%string = substring k m b.
Proof.
  induction a as [|c a IH]; cbn; [reflexivity | exact IH].
Qed.

Lemma get_skip (a b : string) (k : nat) :
  String.get (String.length a + k) (a ++ b)%string = String.get k b.
Proof.
  induction a as [|c a IH]; cbn; [reflexivity | exact IH].
Qed.

Lemma zfill_length (w : nat) (n : Z) : String.length (zfill w n) = w.
Proof.
  revert n. induction w as [|w IH]; intros n; cbn; [reflexivity|].
  rewrite length_append, IH. cbn. lia.
Qed.

Lemma digit_of_digit_char (n : Z) : digit_of (digit_char n) = Some (n mod 10).
Proof.
  unfold digit_of, digit_char.
  assert (H : 0 <= n mod 10 < 10) by (apply Z.mod_pos_bound; lia).
  rewrite nat_ascii_embedding by lia.
  rewrite Z2Nat.id by lia.
  replace ((48 <=? 48 + n mod 10) && (48 + n mod 10 <=? 57)) with true.
  - f_equal. lia.
  - symmetry. apply andb_true_intro. split; apply Z.leb_le; lia.
Qed.

Lemma int_of_digits_append (a b : string) (acc : Z) :
  int_of_digits acc (a ++ b)%string
  = match int_of_digits acc a with
    | Some x => int_of_digits x b
    | None => None
    end.
Proof.
  revert acc. induction a as [|c a IH]; intros acc; cbn; [reflexivity|].
  destruct (digit_of c); [apply IH | reflexivity].
Qed.

Lemma int_of_digits_zfill (w : nat) (n acc : Z) :
  0 <= n < 10 ^ Z.of_nat w ->
  int_of_digits acc (zfill w n) = Some (acc * 10 ^ Z.of_nat w + n).
Proof.
  revert n. induction w as [|w IH]; intros n Hn.
  - cbn in *. f_equal. lia.
  - cbn [zfill]. rewrite int_of_digits_append.
    rewrite Nat2Z.inj_succ, Z.pow_succ_r in * by lia.
    rewrite IH by (split; [apply Z.div_pos; lia
                          | apply Z.div_lt_upper_bound; lia]).
    cbn [int_of_digits]. rewrite digit_of_digit_char. f_equal.
    pose proof (Z.div_mod n 10 ltac:(lia)). lia.
Qed.

Lemma parse_digits_zfill (w : nat) (n : Z) :
  0 <= n < 10 ^ Z.of_nat w -> parse_digits w (zfill w n) = Some n.
Proof.
  intros Hn. unfold parse_digits. rewrite zfill_length, Nat.eqb_refl.
  rewrite int_of_digits_zfill by exact Hn. rewrite Z.mul_0_l. reflexivity.
Qed.

(** The date part of [isoformat] reads back as the date. *)
Lemma parse_isoformat_date_zfill (y m d : Z) :
  0 <= y < 10000 -> 0 <= m < 100 -> 0 <= d < 100 ->
  parse_isoformat_date
    (zfill 4 y ++ "-" ++ zfill 2 m ++ "-" ++ zfill 2 d)%string
  = Some (y, m, d).
Proof.
  intros Hy Hm Hd. unfold parse_isoformat_date, char_at, parse_digits.
  cbn -[digit_char Z.div Z.modulo Z.mul Z.add Z.sub].
  repeat (rewrite digit_of_digit_char;
          cbn -[digit_char Z.div Z.modulo Z.mul Z.add Z.sub]).
  repeat f_equal; Z.to_euclidean_division_equations; lia.
Qed.

Lemma valid_datetime_date (D : datetime) :
  valid_datetime D = true ->
  (1 <= year D <= 9999) /\ (1 <= month D <= 12)
  /\ (1 <= day D <= days_in_month (year D) (month D)).
Proof.
  unfold valid_datetime. rewrite !andb_true_iff, !Z.leb_le. tauto.
Qed.

Lemma days_in_month_bound (y m : Z) : days_in_month y m <= 31.
Proof.
  unfold days_in_month.
  destruct (m =? 2); [destruct (is_leap y); lia|].
  destruct ((m =? 4) || (m =? 6) || (m =? 9) || (m =? 11)); lia.
Qed.

Lemma valid_datetime_combine (D : datetime) (h mi s us : Z) :
  valid_datetime D = true ->
  valid_datetime (mkDatetime 1 1 1 h mi s us utc) = true ->
  valid_datetime (combine D h mi s us utc) = true.
Proof.
  intros HD. destruct (valid_datetime_date D HD) as (Hy & Hm & Hd).
  unfold valid_datetime, combine. cbn [year month day hour minute second
    microsecond tz]. rewrite !andb_true_iff, !Z.leb_le. intros H.
  repeat split; try tauto; lia.
Qed.

Lemma fromisoformat_window (D : datetime) (time : string)
    (h mi s us : Z) :
  valid_datetime D = true ->
  valid_datetime (mkDatetime 1 1 1 h mi s us utc) = true ->
  (1 <= String.length time)%nat ->
  parse_isoformat_time time = Some (h, mi, s, us, utc) ->
  fromisoformat
    (zfill 4 (year D) ++ "-" ++ zfill 2 (month D) ++ "-" ++ zfill 2 (day D)
     ++ String "T" time)%string
  = Ok (combine D h mi s us utc).
Proof.
  intros HD Ht Hlen Hparse.
  destruct (valid_datetime_date D HD) as (Hy & Hm & Hd).
  pose proof (days_in_month_bound (year D) (month D)) as Hdim.
  set (W := (zfill 4 (year D) ++ "-" ++ zfill 2 (month D) ++ "-"
              ++ zfill 2 (day D) ++ String "T" time)%string).
  assert (E1 : substring 0 10 W
               = (zfill 4 (year D) ++ "-" ++ zfill 2 (month D) ++ "-"
                  ++ zfill 2 (day D))%string) by reflexivity.
  assert (E2 : String.length W = (11 + String.length time)%nat) by reflexivity.
  assert (E3 : substring 11 (String.length time) W = time)
    by (change (substring 11 (String.length time) W)
          with (substring 0 (String.length time) time); apply substring_all).
  unfold fromisoformat. rewrite E1, E2.
  rewrite parse_isoformat_date_zfill by lia. cbn [opt_bind].
  replace (11 + String.length time =? 10)%nat with false
    by (symmetry; apply Nat.eqb_neq; lia).
  replace (11 + String.length time - 11)%nat with (String.length time) by lia.
  rewrite E3, Hparse. cbn [opt_bind].
  fold (combine D h mi s us utc).
  rewrite (valid_datetime_combine D h mi s us HD Ht). reflexivity.
Qed.

(** C6.  Whatever the current UTC instant, the window of the query starts at
    00:00:00 and ends at 23:59:59.999999 of its calendar day, both in UTC and
    written in ISO 8601 (with the offset [+00:00]); for now =
    2025-06-02T10:00:00Z these are the instants 2025-06-02T00:00:00Z and
    2025-06-02T23:59:59.999999Z.  The window is the one the fetch sends, and
    it holds the current instant (all three read as UTC). *)
Theorem query_window_is_today (S : services) :
  valid_datetime (utc_now S) = true ->
  let D := utc_now S in
  START_DATE S
  = (zfill 4 (year D) ++ "-" ++ zfill 2 (month D) ++ "-" ++ zfill 2 (day D)
     ++ "T00:00:00+00:00")%string
  /\ END_DATE S
     = (zfill 4 (year D) ++ "-" ++ zfill 2 (month D) ++ "-" ++ zfill 2 (day D)
        ++ "T23:59:59.999999+00:00")%string
  /\ fromisoformat (START_DATE S)
     = Ok (mkDatetime (year D) (month D) (day D) 0 0 0 0 utc)
  /\ fromisoformat (END_DATE S)
     = Ok (mkDatetime (year D) (month D) (day D) 23 59 59 999999 utc)
  /\ epoch_us (combine D 0 0 0 0 utc) 0 <= epoch_us D 0
     <= epoch_us (combine D 23 59 59 999999 utc) 0
  /\ (forall h,
        In (Http (ClockifyPost
                    (mkPayload (START_DATE S) (END_DATE S) ["APPROVED"]
                               ["63ceed2d4464230f61549c02"] [])))
           (snd (Lambda.get_time_off_requests S h))
        /\ In (Http (ClockifyPost
                       (mkPayload (START_DATE S) (END_DATE S) ["APPROVED"]
                                  ["63ceed2d4464230f61549c02"] [])))
              (snd (Main.get_time_off_requests S h)))
  /\ (D = example_now ->
      START_DATE S = "2025-06-02T00:00:00+00:00"%string
      /\ END_DATE S = "2025-06-02T23:59:59.999999+00:00"%string
      /\ fromisoformat (START_DATE S)
         = fromisoformat (str_replace "Z" "+00:00" "2025-06-02T00:00:00Z")
      /\ fromisoformat (END_DATE S)
         = fromisoformat
             (str_replace "Z" "+00:00" "2025-06-02T23:59:59.999999Z")).
Proof.
  intros HD. cbv zeta. set (D := utc_now S) in *.
  assert (Es : START_DATE S
    = (zfill 4 (year D) ++ "-" ++ zfill 2 (month D) ++ "-" ++ zfill 2 (day D)
       ++ "T00:00:00+00:00")%string) by reflexivity.
  assert (Ee : END_DATE S
    = (zfill 4 (year D) ++ "-" ++ zfill 2 (month D) ++ "-" ++ zfill 2 (day D)
       ++ "T23:59:59.999999+00:00")%string) by reflexivity.
  split; [exact Es|]. split; [exact Ee|].
  split; [|split; [|split; [|split]]].
  - rewrite Es. apply (fromisoformat_window D "00:00:00+00:00" 0 0 0 0 HD);
      [reflexivity | cbn; lia | reflexivity].
  - rewrite Ee.
    apply (fromisoformat_window D "23:59:59.999999+00:00" 23 59 59 999999 HD);
      [reflexivity | cbn; lia | reflexivity].
  - unfold valid_datetime in HD. rewrite !andb_true_iff, !Z.leb_le in HD.
    unfold epoch_us, wall_us, combine.
    cbn [year month day hour minute second microsecond]. lia.
  - intros h. split.
    + unfold Lambda.get_time_off_requests. run_m. right. left. reflexivity.
    + unfold Main.get_time_off_requests. run_m. left. reflexivity.
  - intros E. unfold START_DATE, END_DATE. fold D. rewrite E.
    repeat split; vm_compute; reflexivity.
Qed.

Lemma query_window_is_today_witness :
  START_DATE (const_services bad_gateway lookup_found update_ok)
  = "2025-06-02T00:00:00+00:00"%string.
Proof.
  apply (query_window_is_today
           (const_services bad_gateway lookup_found update_ok));
    reflexivity.
Defined.

(** ** Further properties of the code *)

(** *** [set_user_status] *)

Lemma lambda_set_user_status_on_json
    (S : services) (uid : pyval) (text emoji : string) (exp : Z)
    (h : list call) (d : list (string * pyval)) :
  json (slack_profile_set S h uid text emoji exp) = Some (PDict d) ->
  Lambda.set_user_status S uid text emoji exp h
  = (Ok tt,
     [Print (MsgUpdating uid text emoji exp);
      Http (SlackProfileSet uid text emoji exp);
      if (status_code (slack_profile_set S h uid text emoji exp) =? 200)
         && truthy (or_default (dict_get d "ok") PNone)
      then Print (MsgUpdated uid text)
      else Logging ERROR (MsgFailedToUpdate uid (PDict d))]).
Proof.
  intros Hj. unfold Lambda.set_user_status. run_m. rewrite Hj.
  destruct (status_code _ =? 200); cbn; [|reflexivity].
  destruct (dict_get d "ok") as [v|]; cbn; [|reflexivity].
  destruct (truthy v); reflexivity.
Qed.

Lemma main_set_user_status_on_json
    (S : services) (uid : pyval) (text emoji : string) (exp : Z)
    (h : list call) (d : list (string * pyval)) :
  json (slack_profile_set S h uid text emoji exp) = Some (PDict d) ->
  Main.set_user_status S uid text emoji exp h
  = (Ok tt,
     [Http (SlackProfileSet uid text emoji exp);
      if (status_code (slack_profile_set S h uid text emoji exp) =? 200)
         && truthy (or_default (dict_get d "ok") PNone)
      then Print (MsgUpdated uid text)
      else Print (MsgFailedToUpdate uid (PDict d))]).
Proof.
  intros Hj. unfold Main.set_user_status. run_m. rewrite Hj.
  destruct (status_code _ =? 200); cbn; [|reflexivity].
  destruct (dict_get d "ok") as [v|]; cbn; [|reflexivity].
  destruct (truthy v); reflexivity.
Qed.

(** Whatever JSON object the update endpoint answers, [set_user_status]
    returns: it sends one request carrying its four arguments, reports
    success exactly when the status is 200 and [ok] is true, and otherwise
    reports the failure with the body, without a second attempt. *)
Theorem set_user_status_reports
    (S : services) (uid : pyval) (text emoji : string) (exp : Z)
    (h : list call) (d : list (string * pyval)) :
  json (slack_profile_set S h uid text emoji exp) = Some (PDict d) ->
  let ok := (status_code (slack_profile_set S h uid text emoji exp) =? 200)
            && truthy (or_default (dict_get d "ok") PNone) in
  Lambda.set_user_status S uid text emoji exp h
  = (Ok tt,
     [Print (MsgUpdating uid text emoji exp);
      Http (SlackProfileSet uid text emoji exp);
      if ok then Print (MsgUpdated uid text)
      else Logging ERROR (MsgFailedToUpdate uid (PDict d))])
  /\ Main.set_user_status S uid text emoji exp h
     = (Ok tt,
        [Http (SlackProfileSet uid text emoji exp);
         if ok then Print (MsgUpdated uid text)
         else Print (MsgFailedToUpdate uid (PDict d))]).
Proof.
  intros Hj. cbv zeta. split.
  - apply lambda_set_user_status_on_json, Hj.
  - apply main_set_user_status_on_json, Hj.
Qed.

Lemma set_user_status_reports_witness :
  Lambda.set_user_status (const_services bad_gateway lookup_found update_ok)
    (PStr "U1") "On Holiday" ":palm_tree:" 0 []
  = (Ok tt,
     [Print (MsgUpdating (PStr "U1") "On Holiday" ":palm_tree:" 0);
      Http (SlackProfileSet (PStr "U1") "On Holiday" ":palm_tree:" 0);
      Print (MsgUpdated (PStr "U1") "On Holiday")]).
Proof.
  apply (set_user_status_reports
           (const_services bad_gateway lookup_found update_ok)
           (PStr "U1") "On Holiday" ":palm_tree:" 0 [] [("ok", PBool true)]).
  reflexivity.
Defined.

Lemma lambda_set_user_status_on_non_json
    (S : services) (uid : pyval) (text emoji : string) (exp : Z)
    (h : list call) :
  json (slack_profile_set S h uid text emoji exp) = None ->
  Lambda.set_user_status S uid text emoji exp h
  = (Raise JSONDecodeError,
     [Print (MsgUpdating uid text emoji exp);
      Http (SlackProfileSet uid text emoji exp)]).
Proof.
  intros Hj. unfold Lambda.set_user_status. run_m. rewrite Hj.
  destruct (status_code _ =? 200); reflexivity.
Qed.

Lemma main_set_user_status_on_non_json
    (S : services) (uid : pyval) (text emoji : string) (exp : Z)
    (h : list call) :
  json (slack_profile_set S h uid text emoji exp) = None ->
  Main.set_user_status S uid text emoji exp h
  = (Raise JSONDecodeError, [Http (SlackProfileSet uid text emoji exp)]).
Proof.
  intros Hj. unfold Main.set_user_status. run_m. rewrite Hj.
  destruct (status_code _ =? 200); reflexivity.
Qed.

(** When the body of the answer is not JSON, whatever the status code,
    [set_user_status] raises [JSONDecodeError] after the request has been
    sent: on a status other than 200 it is the failure report itself, which
    reads the body, that raises. *)
Theorem set_user_status_raises_on_non_json
    (S : services) (uid : pyval) (text emoji : string) (exp : Z)
    (h : list call) :
  json (slack_profile_set S h uid text emoji exp) = None ->
  Lambda.set_user_status S uid text emoji exp h
  = (Raise JSONDecodeError,
     [Print (MsgUpdating uid text emoji exp);
      Http (SlackProfileSet uid text emoji exp)])
  /\ Main.set_user_status S uid text emoji exp h
     = (Raise JSONDecodeError, [Http (SlackProfileSet uid text emoji exp)]).
Proof.
  intros Hj. split.
  - apply lambda_set_user_status_on_non_json, Hj.
  - apply main_set_user_status_on_non_json, Hj.
Qed.

Lemma set_user_status_raises_on_non_json_witness :
  Main.set_user_status (const_services bad_gateway lookup_found bad_gateway)
    (PStr "U1") "On Holiday" ":palm_tree:" 0 []
  = (Raise JSONDecodeError,
     [Http (SlackProfileSet (PStr "U1") "On Holiday" ":palm_tree:" 0)]).
Proof.
  apply (set_user_status_raises_on_non_json
           (const_services bad_gateway lookup_found bad_gateway)
           (PStr "U1") "On Holiday" ":palm_tree:" 0 []).
  reflexivity.
Defined.

(** *** [get_slack_user_id], off the documented answers *)

(** An answer that says [ok] but carries no [user.id] is not turned into
    "not found": the lookup raises, [KeyError] when [user] or its [id] is
    missing and [TypeError] when [user] is not an object, and no warning is
    written. *)
Theorem get_slack_user_id_raises_without_user_id
    (S : services) (h : list call) (email : pyval) (d : list (string * pyval))
    (ok : pyval) :
  json (slack_lookup_by_email S h email) = Some (PDict d) ->
  dict_get d "ok" = Some ok ->
  truthy ok = true ->
  lookup_path (PDict d) ["user"; "id"] = None ->
  let e := match dict_get d "user" with
           | None | Some (PDict _) => KeyError
           | Some _ => TypeError
           end in
  Lambda.get_slack_user_id S email h
  = (Raise e, [Print (MsgLookingUp email); Http (SlackLookup email)])
  /\ Main.get_slack_user_id S email h = (Raise e, [Http (SlackLookup email)]).
Proof.
  intros Hj Hok Ht Hp. cbv zeta.
  unfold Lambda.get_slack_user_id, Main.get_slack_user_id.
  run_m. rewrite Hj. cbn. rewrite Hok. cbn. rewrite Ht. cbn in *.
  destruct (dict_get d "user") as [[| | | | | |ud]|]; cbn;
    try (split; reflexivity).
  destruct (dict_get ud "id"); [discriminate | split; reflexivity].
Qed.

Lemma get_slack_user_id_raises_without_user_id_witness :
  Main.get_slack_user_id
    (const_services bad_gateway (json_response 200 (PDict [("ok", PBool true)]))
                    update_ok)
    (PStr "a@x.com") []
  = (Raise KeyError, [Http (SlackLookup (PStr "a@x.com"))]).
Proof.
  apply (get_slack_user_id_raises_without_user_id
           (const_services bad_gateway
              (json_response 200 (PDict [("ok", PBool true)])) update_ok)
           [] (PStr "a@x.com") [("ok", PBool true)] (PBool true));
    reflexivity.
Defined.

(** An answer that is not JSON, or is JSON but not an object, makes the
    lookup raise as well ([JSONDecodeError], [AttributeError]); the answer's
    status code is never looked at. *)
Theorem get_slack_user_id_raises_on_non_object
    (S : services) (h : list call) (email : pyval) :
  match json (slack_lookup_by_email S h email) with
  | Some (PDict _) => False
  | _ => True
  end ->
  let e := match json (slack_lookup_by_email S h email) with
           | None => JSONDecodeError
           | Some _ => AttributeError
           end in
  Lambda.get_slack_user_id S email h
  = (Raise e, [Print (MsgLookingUp email); Http (SlackLookup email)])
  /\ Main.get_slack_user_id S email h = (Raise e, [Http (SlackLookup email)]).
Proof.
  intros Hj. cbv zeta.
  unfold Lambda.get_slack_user_id, Main.get_slack_user_id. run_m.
  destruct (json (slack_lookup_by_email S h email)) as [[]|];
    try contradiction; split; reflexivity.
Qed.

Lemma get_slack_user_id_raises_on_non_object_witness :
  Lambda.get_slack_user_id vacation_lookup_down (PStr "a@x.com") []
  = (Raise JSONDecodeError,
     [Print (MsgLookingUp (PStr "a@x.com"));
      Http (SlackLookup (PStr "a@x.com"))]).
Proof.
  apply (get_slack_user_id_raises_on_non_object vacation_lookup_down []
           (PStr "a@x.com")).
  exact I.
Defined.

(** *** [get_time_off_requests], off the documented answers *)

(** A 200 answer whose [requests] is empty or null: the standalone variant
    tests it first and returns no record, whatever the falsy value; the
    scheduled variant iterates over it, so that [null] (or [false], or 0)
    raises [TypeError] there. *)
Theorem falsy_requests_variants_differ
    (S : services) (h : list call) (d : list (string * pyval)) (v : pyval) :
  status_code (clockify_time_off S h (time_off_payload S)) = 200 ->
  json (clockify_time_off S h (time_off_payload S)) = Some (PDict d) ->
  dict_get d "requests" = Some v ->
  truthy v = false ->
  Main.get_time_off_requests S h
  = (Ok [], [Http (ClockifyPost (time_off_payload S)); Print MsgNoRequestsFound])
  /\ Lambda.get_time_off_requests S h
     = (match py_iter v with Ok _ => Ok [] | Raise e => Raise e end,
        [Print MsgFetching; Http (ClockifyPost (time_off_payload S))])
  /\ (v = PNone -> fst (Lambda.get_time_off_requests S h) = Raise TypeError).
Proof.
  intros Hc Hj Hr Hv. apply Z.eqb_eq in Hc.
  assert (HL : Lambda.get_time_off_requests S h
     = (match py_iter v with Ok _ => Ok [] | Raise e => Raise e end,
        [Print MsgFetching; Http (ClockifyPost (time_off_payload S))])).
  { unfold Lambda.get_time_off_requests. run_m. rewrite Hc, Hj. cbn.
    rewrite Hr.
    destruct v as [|b|z|m e|s|l|l]; try reflexivity;
      (destruct s || destruct l); try discriminate; reflexivity. }
  split; [|split].
  - unfold Main.get_time_off_requests. run_m. rewrite Hc, Hj. cbn.
    rewrite Hr, Hv. reflexivity.
  - exact HL.
  - intros ->. rewrite HL. reflexivity.
Qed.

Lemma falsy_requests_variants_differ_witness :
  fst (Lambda.get_time_off_requests
         (const_services (json_response 200 (PDict [("requests", PNone)]))
                         lookup_found update_ok) [])
  = Raise TypeError.
Proof.
  apply (falsy_requests_variants_differ
           (const_services (json_response 200 (PDict [("requests", PNone)]))
                           lookup_found update_ok)
           [] [("requests", PNone)] PNone); reflexivity.
Defined.

Lemma lambda_normalize_not_object (req : pyval) :
  request_object req = false -> Lambda.normalize req = Raise AttributeError.
Proof.
  unfold request_object, optional_object, Lambda.normalize.
  destruct req; try reflexivity. cbn.
  destruct (dict_get d "userEmail"), (dict_get d "userName");
    (destruct (dict_get d "timeOffPeriod") as [[| | | | | |tp]|];
       cbn; try discriminate; try reflexivity;
     destruct (dict_get tp "period") as [[]|];
       cbn; try discriminate; reflexivity).
Qed.

Lemma main_normalize_not_object (req : pyval) :
  request_object req = false -> Main.normalize req = Raise AttributeError.
Proof.
  unfold request_object, optional_object, Main.normalize.
  destruct req; try reflexivity. cbn.
  destruct (dict_get d "userEmail"), (dict_get d "userName");
    (destruct (dict_get d "timeOffPeriod") as [[| | | | | |tp]|];
       cbn; try discriminate; try reflexivity;
     destruct (dict_get tp "period") as [[]|];
       cbn; try discriminate; reflexivity).
Qed.

Lemma lambda_normalize_raises (req : pyval) (e : exn) :
  Lambda.normalize req = Raise e -> e = AttributeError.
Proof.
  destruct (request_object req) eqn:Ho.
  - rewrite (lambda_normalize_request req Ho). discriminate.
  - rewrite (lambda_normalize_not_object req Ho). congruence.
Qed.

Lemma py_get_raises (v : pyval) (k : string) (dflt : pyval) (e : exn) :
  py_get v k dflt = Raise e -> e = AttributeError.
Proof.
  destruct v; cbn; congruence.
Qed.

Lemma main_normalize_raises (req : pyval) (e : exn) :
  Main.normalize req = Raise e -> e = AttributeError.
Proof.
  unfold Main.normalize.
  repeat match goal with
         | |- context [obind (py_get ?v ?k ?dflt) _] =>
             let E := fresh "E" in
             destruct (py_get v k dflt) eqn:E; cbn [obind];
             [|apply py_get_raises in E; congruence]
         end.
  discriminate.
Qed.

Lemma comprehension_raises {A B : Type} (f : A -> outcome B) (E : exn)
    (l : list A) (a : A) (e : exn) :
  (forall x e', f x = Raise e' -> e' = E) ->
  In a l -> f a = Raise e ->
  comprehension f l = Raise E.
Proof.
  intros HE. induction l as [|x l IH]; intros Hin Ha; [contradiction|].
  cbn. destruct (f x) as [b|e'] eqn:Hx; cbn.
  - destruct Hin as [-> | Hin]; [congruence|].
    rewrite (IH Hin Ha). reflexivity.
  - rewrite (HE x e' Hx). reflexivity.
Qed.

(** One request of the answer that is not a request object (a [null]
    [timeOffPeriod], say) makes the comprehension raise [AttributeError]:
    no record at all is returned, the well-formed requests included, and the
    run ends without a lookup or an update. *)
Theorem one_malformed_request_voids_the_batch
    (S : services) (h : list call) (d : list (string * pyval))
    (reqs : list pyval) (req : pyval) :
  status_code (clockify_time_off S h (time_off_payload S)) = 200 ->
  json (clockify_time_off S h (time_off_payload S)) = Some (PDict d) ->
  dict_get d "requests" = Some (PList reqs) ->
  In req reqs ->
  request_object req = false ->
  Lambda.update_slack_status_for_time_off_users S h
  = (Raise AttributeError,
     [Print MsgStart; Print MsgFetching;
      Http (ClockifyPost (time_off_payload S))])
  /\ Main.update_slack_status_for_time_off_users S h
     = (Raise AttributeError, [Http (ClockifyPost (time_off_payload S))]).
Proof.
  intros Hc Hj Hr Hin Ho. apply Z.eqb_eq in Hc. split.
  - unfold Lambda.update_slack_status_for_time_off_users,
      Lambda.get_time_off_requests. run_m. rewrite Hc, Hj. cbn. rewrite Hr. cbn.
    rewrite (comprehension_raises Lambda.normalize AttributeError reqs req
               AttributeError lambda_normalize_raises Hin
               (lambda_normalize_not_object req Ho)).
    reflexivity.
  - unfold Main.update_slack_status_for_time_off_users,
      Main.get_time_off_requests. run_m. rewrite Hc, Hj. cbn. rewrite Hr.
    destruct reqs as [|r0 reqs']; [contradiction|]. cbn [truthy negb].
    cbn [py_iter obind].
    rewrite (comprehension_raises Main.normalize AttributeError (r0 :: reqs') req
               AttributeError main_normalize_raises Hin
               (main_normalize_not_object req Ho)).
    reflexivity.
Qed.

Lemma one_malformed_request_voids_the_batch_witness :
  Main.update_slack_status_for_time_off_users
    (const_services
       (fetch_ok [time_off_request "a@x.com" "Vacations" end_of_day;
                  PDict [("userEmail", PStr "b@x.com");
                         ("timeOffPeriod", PNone)]])
       lookup_found update_ok) []
  = (Raise AttributeError,
     [Http (ClockifyPost
              (time_off_payload
                 (const_services
                    (fetch_ok [time_off_request "a@x.com" "Vacations" end_of_day;
                               PDict [("userEmail", PStr "b@x.com");
                                      ("timeOffPeriod", PNone)]])
                    lookup_found update_ok)))]).
Proof.
  apply (one_malformed_request_voids_the_batch
           (const_services
              (fetch_ok [time_off_request "a@x.com" "Vacations" end_of_day;
                         PDict [("userEmail", PStr "b@x.com");
                                ("timeOffPeriod", PNone)]])
              lookup_found update_ok)
           []
           [("requests",
             PList [time_off_request "a@x.com" "Vacations" end_of_day;
                    PDict [("userEmail", PStr "b@x.com");
                           ("timeOffPeriod", PNone)]])]
           [time_off_request "a@x.com" "Vacations" end_of_day;
            PDict [("userEmail", PStr "b@x.com"); ("timeOffPeriod", PNone)]]
           (PDict [("userEmail", PStr "b@x.com"); ("timeOffPeriod", PNone)]));
    try reflexivity.
  right. left. reflexivity.
Defined.

(** *** The loop, whatever the services answer *)

(** The expiration is computed before the policy is looked at: a record
    whose end makes that computation raise ends the loop at once, even when
    its policy is not in the table and the record would have been skipped.
    No call is made for it, and the records after it are not processed. *)
Theorem bad_end_ends_the_loop_before_the_policy_check
    (S : services) (h : list call) (em nm st en sty pol : pyval) (e : exn)
    (rest_l : list Lambda.time_off_record) (rest_m : list Main.time_off_record) :
  expiration_time S en = Raise e ->
  for_each (Lambda.process_user S) (Lambda.mkRecord em nm st en pol :: rest_l) h
  = (Raise e, [Print (MsgProcessing em pol)])
  /\ for_each (Main.process_user S)
              (Main.mkRecord em nm st en sty pol :: rest_m) h
     = (Raise e, []).
Proof.
  intros He. split.
  - apply for_each_stops. unfold Lambda.process_user.
    cbn [Lambda.email Lambda.end_ Lambda.policy_name]. rewrite He. reflexivity.
  - apply for_each_stops. unfold Main.process_user.
    cbn [Main.email Main.end_ Main.policy_name]. rewrite He. reflexivity.
Qed.

Lemma bad_end_ends_the_loop_before_the_policy_check_witness :
  for_each (Main.process_user unknown_then_vacation)
    [Main.mkRecord (PStr "b@x.com") (PStr "N") PNone (PInt 1748908799) PNone
                   (PStr "Unknown");
     Main.mkRecord (PStr "a@x.com") (PStr "N") PNone end_of_day PNone
                   (PStr "Vacations")] []
  = (Raise AttributeError, []).
Proof.
  apply (bad_end_ends_the_loop_before_the_policy_check unknown_then_vacation []
           (PStr "b@x.com") (PStr "N") PNone (PInt 1748908799) PNone
           (PStr "Unknown") AttributeError []).
  reflexivity.
Defined.

Lemma lambda_process_user_calls (S : services) (u : Lambda.time_off_record)
    (h : list call) :
  record_calls (Lambda.email u) (calls_of (snd (Lambda.process_user S u h))).
Proof.
  destruct (Lambda.process_user S u h) as [o w] eqn:E.
  unfold Lambda.process_user in E. run_inv E; use_inv; cbn;
    unfold record_calls; eauto 8.
Qed.

Lemma main_process_user_calls (S : services) (u : Main.time_off_record)
    (h : list call) :
  record_calls (Main.email u) (calls_of (snd (Main.process_user S u h))).
Proof.
  destruct (Main.process_user S u h) as [o w] eqn:E.
  unfold Main.process_user in E. run_inv E; use_inv; cbn;
    unfold record_calls; eauto 8.
Qed.

Lemma for_each_processed {A : Type} (body : A -> M unit)
    (P : A -> list call -> list event -> Prop) (l : list A) :
  (forall u h, P u h (snd (body u h))) ->
  forall h,
  exists groups,
    snd (for_each body l h) = List.concat groups
    /\ processed body P h l groups.
Proof.
  intros HP. induction l as [|u l IH]; intros h.
  - exists []. split; [reflexivity | constructor].
  - specialize (HP u h).
    destruct (body u h) as [[[]|e] g] eqn:E; cbn [snd] in HP.
    + rewrite (for_each_continues body u l h g E). cbn [snd].
      destruct (IH (h ++ calls_of g)) as (gs & Hs & Hp).
      exists (g :: gs). rewrite Hs. split; [reflexivity|].
      apply processed_returns; assumption.
    + rewrite (for_each_stops body u l h e g E). cbn [snd].
      exists [g]. cbn [List.concat]. rewrite app_nil_r.
      split; [reflexivity|]. apply (processed_raises body P h u l e g E HP).
Qed.

Lemma lambda_fetch_calls (S : services) (h : list call) :
  calls_of (snd (Lambda.get_time_off_requests S h))
  = [ClockifyPost (time_off_payload S)].
Proof.
  destruct (Lambda.get_time_off_requests S h) as [o w] eqn:E.
  unfold Lambda.get_time_off_requests in E. run_inv E; reflexivity.
Qed.

Lemma main_fetch_calls (S : services) (h : list call) :
  calls_of (snd (Main.get_time_off_requests S h))
  = [ClockifyPost (time_off_payload S)].
Proof.
  destruct (Main.get_time_off_requests S h) as [o w] eqn:E.
  unfold Main.get_time_off_requests in E. run_inv E; reflexivity.
Qed.

Lemma snd_bind {A B : Type} (c : M A) (k : A -> M B) (h : list call) :
  snd (bind c k h)
  = match fst (c h) with
    | Ok a => snd (c h) ++ snd (k a (h ++ calls_of (snd (c h))))
    | Raise _ => snd (c h)
    end.
Proof.
  unfold bind. destruct (fst (c h)); reflexivity.
Qed.

(** The events of a run, from what the fetch returned. *)
Lemma lambda_run_events (S : services) (h : list call) :
  snd (Lambda.update_slack_status_for_time_off_users S h)
  = Print MsgStart
    :: snd (Lambda.get_time_off_requests S h)
    ++ match fst (Lambda.get_time_off_requests S h) with
       | Ok recs =>
           Print (MsgFound (List.length recs))
           :: snd (for_each (Lambda.process_user S) recs
                     (h ++ [ClockifyPost (time_off_payload S)]))
       | Raise _ => []
       end.
Proof.
  unfold Lambda.update_slack_status_for_time_off_users.
  rewrite snd_bind. cbn [print emit fst snd app calls_of].
  rewrite app_nil_r, snd_bind. rewrite (lambda_fetch_calls S h).
  destruct (fst (Lambda.get_time_off_requests S h)) as [recs|e];
    [|rewrite app_nil_r; reflexivity].
  rewrite snd_bind. cbn [print emit fst snd app calls_of].
  rewrite app_nil_r. reflexivity.
Qed.

Lemma main_run_events (S : services) (h : list call) :
  snd (Main.update_slack_status_for_time_off_users S h)
  = snd (Main.get_time_off_requests S h)
    ++ match fst (Main.get_time_off_requests S h) with
       | Ok [] => [Print MsgNoUsersOnLeave]
       | Ok recs =>
           Print (MsgUpdatingFor (List.length recs))
           :: snd (for_each (Main.process_user S) recs
                     (h ++ [ClockifyPost (time_off_payload S)]))
       | Raise _ => []
       end.
Proof.
  unfold Main.update_slack_status_for_time_off_users.
  rewrite snd_bind. rewrite (main_fetch_calls S h).
  destruct (fst (Main.get_time_off_requests S h)) as [[|u recs]|e];
    [reflexivity| |rewrite app_nil_r; reflexivity].
  rewrite snd_bind. cbn [print emit fst snd app calls_of].
  rewrite app_nil_r. reflexivity.
Qed.

Lemma concat_calls (groups : list (list event)) :
  calls_of (List.concat groups) = List.concat (map calls_of groups).
Proof.
  induction groups as [|g gs IH]; cbn; [reflexivity|].
  rewrite calls_of_app, IH. reflexivity.
Qed.

(** Whatever the services answer, and whether the run completes or raises,
    its calls are the time-off query, sent once and first, and then one
    group of calls per fetched record, in the order of the records, up to
    the first record whose processing raises and no further: the group of a
    record is nothing, the lookup of its email, or that lookup followed by
    one update.  A run whose fetch raises makes no other call. *)
Theorem calls_of_a_run (S : services) (h : list call) :
  (exists groups,
      calls_of (snd (Lambda.update_slack_status_for_time_off_users S h))
      = ClockifyPost (time_off_payload S) :: List.concat (map calls_of groups)
      /\ match fst (Lambda.get_time_off_requests S h) with
         | Ok recs =>
             processed (Lambda.process_user S)
               (fun u _ g => record_calls (Lambda.email u) (calls_of g))
               (h ++ [ClockifyPost (time_off_payload S)]) recs groups
         | Raise _ => groups = []
         end)
  /\ (exists groups,
      calls_of (snd (Main.update_slack_status_for_time_off_users S h))
      = ClockifyPost (time_off_payload S) :: List.concat (map calls_of groups)
      /\ match fst (Main.get_time_off_requests S h) with
         | Ok recs =>
             processed (Main.process_user S)
               (fun u _ g => record_calls (Main.email u) (calls_of g))
               (h ++ [ClockifyPost (time_off_payload S)]) recs groups
         | Raise _ => groups = []
         end).
Proof.
  split.
  - rewrite lambda_run_events. cbn [calls_of]. rewrite calls_of_app.
    rewrite (lambda_fetch_calls S h).
    destruct (fst (Lambda.get_time_off_requests S h)) as [recs|e].
    + destruct (for_each_processed (Lambda.process_user S)
                  (fun u _ g => record_calls (Lambda.email u) (calls_of g))
                  recs (fun u h' => lambda_process_user_calls S u h')
                  (h ++ [ClockifyPost (time_off_payload S)]))
        as (groups & Hs & Hp).
      exists groups. cbn [calls_of app]. rewrite Hs, concat_calls.
      split; [reflexivity | exact Hp].
    + exists []. split; reflexivity.
  - rewrite main_run_events. rewrite calls_of_app.
    rewrite (main_fetch_calls S h).
    destruct (fst (Main.get_time_off_requests S h)) as [[|u recs]|e].
    + exists []. split; [reflexivity | constructor].
    + destruct (for_each_processed (Main.process_user S)
                  (fun u _ g => record_calls (Main.email u) (calls_of g))
                  (u :: recs) (fun u h' => main_process_user_calls S u h')
                  (h ++ [ClockifyPost (time_off_payload S)]))
        as (groups & Hs & Hp).
      exists groups. cbn [calls_of app]. rewrite Hs, concat_calls.
      split; [reflexivity | exact Hp].
    + exists []. split; reflexivity.
Qed.

(** *** Every fetched record, in the run *)




Lemma lookup_emails_app (t u : list event) :
  lookup_emails (t ++ u) = lookup_emails t ++ lookup_emails u.
Proof.
  induction t as [|[m|l m|[p|e|uid x y z]] t IH]; cbn; rewrite ?IH; reflexivity.
Qed.

Ltac finish_lookups :=
  unfold known_policy; cbn [snd app lookup_emails];
  repeat match goal with
         | H : status_entry _ = _ |- _ => rewrite H in *
         end;
  try congruence; reflexivity.

Lemma lambda_process_user_lookups (S : services) (u : Lambda.time_off_record)
    (h : list call) :
  wf_end (Lambda.end_ u) ->
  lookup_emails (snd (Lambda.process_user S u h))
  = if known_policy (Lambda.policy_name u) then [Lambda.email u] else [].
Proof.
  intros Hen. destruct (wf_end_expiration S _ Hen) as [z Hz].
  destruct (Lambda.process_user S u h) as [o w] eqn:E.
  unfold Lambda.process_user in E. rewrite Hz in E.
  run_inv E; use_inv; finish_lookups.
Qed.

Lemma main_process_user_lookups (S : services) (u : Main.time_off_record)
    (h : list call) :
  wf_end (Main.end_ u) ->
  lookup_emails (snd (Main.process_user S u h))
  = if known_policy (Main.policy_name u) then [Main.email u] else [].
Proof.
  intros Hen. destruct (wf_end_expiration S _ Hen) as [z Hz].
  destruct (Main.process_user S u h) as [o w] eqn:E.
  unfold Main.process_user in E. rewrite Hz in E.
  run_inv E; use_inv; finish_lookups.
Qed.

Lemma for_each_lookups {A : Type} (body : A -> M unit) (P : A -> Prop)
    (known : A -> bool) (key : A -> pyval) (l : list A) :
  (forall a h, P a -> fst (body a h) = Ok tt) ->
  (forall a h, P a ->
     lookup_emails (snd (body a h)) = if known a then [key a] else []) ->
  Forall P l ->
  forall h,
    lookup_emails (snd (for_each body l h)) = map key (filter known l).
Proof.
  intros Hret Hlook. induction 1 as [|a l Ha Hl IH]; intros h; [reflexivity|].
  specialize (Hret a h Ha). specialize (Hlook a h Ha).
  destruct (body a h) as [o w] eqn:E. cbn [fst snd] in *. subst o.
  rewrite (for_each_continues body a l h w E). cbn [snd].
  rewrite lookup_emails_app, Hlook, IH. cbn [filter].
  destruct (known a); reflexivity.
Qed.

(** With services that answer as documented, the loop looks up the email of
    every record whose policy is in the table, in the order of the records
    and once per record: an email that comes in several records is looked up
    again each time, nothing is remembered from one record to the next. *)
Theorem every_known_record_is_looked_up
    (S : services) (h : list call)
    (recs_l : list Lambda.time_off_record) (recs_m : list Main.time_off_record) :
  wf_services S ->
  Forall wf_lambda_record recs_l ->
  Forall wf_main_record recs_m ->
  lookup_emails (snd (for_each (Lambda.process_user S) recs_l h))
  = map Lambda.email
      (filter (fun u => known_policy (Lambda.policy_name u)) recs_l)
  /\ lookup_emails (snd (for_each (Main.process_user S) recs_m h))
     = map Main.email
         (filter (fun u => known_policy (Main.policy_name u)) recs_m).
Proof.
  intros Hwf Hl Hm. split.
  - apply (for_each_lookups _ wf_lambda_record); [| |exact Hl].
    + intros a h' Ha. apply lambda_process_user_returns; assumption.
    + intros a h' [Ha _]. apply lambda_process_user_lookups, Ha.
  - apply (for_each_lookups _ wf_main_record); [| |exact Hm].
    + intros a h' Ha. apply main_process_user_returns; assumption.
    + intros a h' [Ha _]. apply main_process_user_lookups, Ha.
Qed.

Lemma every_known_record_is_looked_up_witness :
  lookup_emails
    (snd (for_each (Lambda.process_user unknown_then_vacation)
            [Lambda.mkRecord (PStr "a@x.com") (PStr "N") PNone end_of_day
                             (PStr "Vacations");
             Lambda.mkRecord (PStr "b@x.com") (PStr "N") PNone PNone
                             (PStr "Unknown");
             Lambda.mkRecord (PStr "a@x.com") (PStr "N") PNone PNone
                             (PStr "Sick")] []))
  = [PStr "a@x.com"; PStr "a@x.com"].
Proof.
  apply (every_known_record_is_looked_up unknown_then_vacation []
           [Lambda.mkRecord (PStr "a@x.com") (PStr "N") PNone end_of_day
                            (PStr "Vacations");
            Lambda.mkRecord (PStr "b@x.com") (PStr "N") PNone PNone
                            (PStr "Unknown");
            Lambda.mkRecord (PStr "a@x.com") (PStr "N") PNone PNone
                            (PStr "Sick")]
           [] unknown_then_vacation_wf).
  - repeat (constructor; [split; [|reflexivity]|]);
      [exact end_of_day_wf | left; reflexivity | left; reflexivity|].
    constructor.
  - constructor.
Defined.

(** *** The expiration is the whole epoch second *)

Lemma round64_pos_truncates (N : Z) :
  0 < N < 2 ^ 33 * 1000000 ->
  int_of_float (round64_pos N 1000000) = N / 1000000.
Proof.
  intros HN. unfold round64_pos.
  set (D := 1000000).
  set (k0 := Z.log2 N - Z.log2 D).
  set (below := if 0 <=? k0 then N <? D * 2 ^ k0 else N * 2 ^ (- k0) <? D).
  set (k := if below then k0 - 1 else k0).
  set (e := k - 52).
  assert (Hlog : Z.log2 N < 53).
  { apply Z.log2_lt_pow2; [lia|]. change (2 ^ 53) with 9007199254740992.
    change (2 ^ 33) with 8589934592 in HN. lia. }
  assert (HlogD : Z.log2 D = 19) by reflexivity.
  assert (Hlog0 : 0 <= Z.log2 N) by apply Z.log2_nonneg.
  assert (He : -72 <= e <= -19).
  { unfold e, k, k0. rewrite HlogD. destruct below; lia. }
  replace (0 <=? e) with false by (symmetry; apply Z.leb_gt; lia).
  set (P := 2 ^ (- e)).
  assert (HP : 524288 <= P).
  { unfold P. change 524288 with (2 ^ 19). apply Z.pow_le_mono_r; lia. }
  pose proof (Z.div_mod (N * P) D ltac:(unfold D; lia)) as Hq.
  pose proof (Z.mod_pos_bound (N * P) D ltac:(unfold D; lia)) as Hr.
  pose proof (Z.div_mod N D ltac:(unfold D; lia)) as Hn.
  pose proof (Z.mod_pos_bound N D ltac:(unfold D; lia)) as Hf.
  set (q := N * P / D) in *. set (r := (N * P) mod D) in *.
  set (n := N / D) in *. set (f := N mod D) in *.
  assert (Hn0 : 0 <= n) by (unfold n; apply Z.div_pos; unfold D; lia).
  assert (HfP : f * P <= (D - 1) * P)
    by (apply Z.mul_le_mono_nonneg_r; lia).
  assert (HNP : N * P = D * (n * P) + f * P) by (rewrite Hn; ring).
  assert (HfP0 : 0 <= f * P) by (apply Z.mul_nonneg_nonneg; lia).
  assert (HnP0 : 0 <= n * P) by (apply Z.mul_nonneg_nonneg; lia).
  assert (Hlow : n * P <= q) by (unfold D in *; lia).
  assert (Hup : q < (n + 1) * P) by (unfold D in *; lia).
  assert (Hup' : D <= 2 * r -> q + 1 < (n + 1) * P) by (unfold D in *; lia).
  assert (Hfin : forall m, n * P <= m < (n + 1) * P -> int_of_float (m, e) = n).
  { intros m Hm. unfold int_of_float.
    replace (0 <=? e) with false by (symmetry; apply Z.leb_gt; lia).
    fold P. rewrite Z.quot_div_nonneg by lia.
    symmetry. apply (Z.div_unique m P n (m - n * P)); lia. }
  destruct ((D <? 2 * r) || ((D =? 2 * r) && Z.odd q)) eqn:Hround.
  - apply Hfin. split; [lia|]. apply Hup'.
    apply orb_true_iff in Hround. destruct Hround as [H | H].
    + apply Z.ltb_lt in H. lia.
    + apply andb_true_iff in H. destruct H as [H _]. apply Z.eqb_eq in H. lia.
  - apply Hfin. lia.
Qed.

(** For an end timestamp that reads as an instant with a UTC offset, from
    1970 up to 2^33 seconds after it (the year 2242), the expiration is the
    number of whole seconds from the epoch to that instant: the passage
    through a float does not move it.  Far later it does: the last
    microsecond of the year 9999 gives the epoch second after it. *)
Theorem expiration_is_the_whole_epoch_second
    (S : services) (s : string) (dt : datetime) (off : Z) :
  fromisoformat (str_replace "Z" "+00:00" s) = Ok dt ->
  tz dt = Some off ->
  0 <= epoch_us dt off < 2 ^ 33 * 1000000 ->
  expiration_time S (PStr s) = Ok (epoch_us dt off / 1000000)
  /\ expiration_time S (PStr "9999-12-31T23:59:59.999999Z")
     = Ok (253402300799 + 1).
Proof.
  intros Hp Htz Hrange. split; [|vm_compute; reflexivity].
  unfold expiration_time.
  destruct s as [|c s].
  - cbn in Hp. discriminate.
  - cbn [truthy String.eqb negb]. rewrite Hp. cbn [obind].
    unfold timestamp. rewrite Htz. cbn [obind]. f_equal.
    unfold round64.
    destruct (epoch_us dt off =? 0) eqn:H0.
    + apply Z.eqb_eq in H0. rewrite H0. reflexivity.
    + apply Z.eqb_neq in H0.
      replace (0 <? epoch_us dt off) with true
        by (symmetry; apply Z.ltb_lt; lia).
      apply round64_pos_truncates. lia.
Qed.

Lemma expiration_is_the_whole_epoch_second_witness :
  expiration_time (const_services bad_gateway lookup_found update_ok)
                  (PStr "2025-06-02T23:59:59.999999Z")
  = Ok (1748908799999999 / 1000000).
Proof.
  apply (expiration_is_the_whole_epoch_second
           (const_services bad_gateway lookup_found update_ok)
           "2025-06-02T23:59:59.999999Z"
           (mkDatetime 2025 6 2 23 59 59 999999 (Some 0)) 0);
    [reflexivity | reflexivity | vm_compute; split; [discriminate | reflexivity]].
Defined.

(** *** Loading the credentials *)

(** Once the client is built, [get_secrets] never raises.  When the store
    fails, when its answer has no [SecretString] and when the string cannot
    be read, it prints one error line and returns the empty dict; otherwise
    it returns what [json.loads] makes of the string, be it an object or
    not. *)
Theorem get_secrets_falls_back_to_empty (A : secret_store) :
  boto3_client A REGION_NAME = Done tt ->
  (forall e,
      get_secret_value A SECRET_NAME = Failed e ->
      get_secrets A = (Done (PDict []), [SecFetching; SecError e]))
  /\ (forall response,
        get_secret_value A SECRET_NAME = Done response ->
        match dict_get response "SecretString" with
        | None =>
            get_secrets A
            = (Done (PDict []),
               [SecFetching; SecRetrieved; SecError NoSecretString])
        | Some s =>
            match json_loads A s with
            | Failed e =>
                get_secrets A
                = (Done (PDict []), [SecFetching; SecRetrieved; SecError e])
            | Done v => get_secrets A = (Done v, [SecFetching; SecRetrieved])
            end
        end)
  /\ (exists v, fst (get_secrets A) = Done v).
Proof.
  intros Hc. unfold get_secrets. rewrite Hc. split; [|split].
  - intros e ->. reflexivity.
  - intros response ->. destruct (dict_get response "SecretString") as [s|];
      [destruct (json_loads A s)|]; reflexivity.
  - destruct (get_secret_value A SECRET_NAME) as [response|e];
      [|eexists; reflexivity].
    destruct (dict_get response "SecretString") as [s|];
      [|eexists; reflexivity].
    destruct (json_loads A s); eexists; reflexivity.
Qed.

Lemma get_secrets_falls_back_to_empty_witness :
  get_secrets store_unreachable
  = (Done (PDict []),
     [SecFetching; SecError (ClientError "AccessDeniedException")]).
Proof.
  apply (get_secrets_falls_back_to_empty store_unreachable); reflexivity.
Defined.

(** Credentials that cannot be had do not stop the load: when [get_secrets]
    falls back to the empty dict, and when the environment has none of the
    variables, the three credentials are [None] and the URL of the time-off
    endpoint is built for the workspace called "None". *)
Theorem missing_credentials_load_as_None
    (py_str : pyval -> string) (A : secret_store)
    (env : string -> option string) :
  fst (get_secrets A) = Done (PDict []) ->
  env "CLOCKIFY_API_KEY" = None ->
  env "SLACK_TOKEN" = None ->
  env "CLOCKIFY_WORKSPACE_ID" = None ->
  lambda_load py_str A
  = Done (mkCredentials PNone PNone PNone
            "https://api.clockify.me/api/v1/workspaces/None/time-off/requests")
  /\ main_load py_str env
     = mkCredentials PNone PNone PNone
         "https://api.clockify.me/api/v1/workspaces/None/time-off/requests".
Proof.
  intros HA Hk Ht Hw. unfold lambda_load, main_load, getenv.
  rewrite HA, Hk, Ht, Hw. split; reflexivity.
Qed.

Lemma missing_credentials_load_as_None_witness :
  lambda_load (fun _ => EmptyString) store_unreachable
  = Done (mkCredentials PNone PNone PNone
            "https://api.clockify.me/api/v1/workspaces/None/time-off/requests").
Proof.
  apply (missing_credentials_load_as_None (fun _ => EmptyString)
           store_unreachable empty_env); reflexivity.
Defined.

(** The fallback of [get_secrets] does not cover a secret that is JSON but
    not an object (a list, a string, a number): [get_secrets] returns it as
    it is, and the first [secrets.get] of the module raises
    [AttributeError], so that the module does not load. *)
Theorem non_object_secret_fails_the_load
    (py_str : pyval -> string) (A : secret_store) (v : pyval) :
  fst (get_secrets A) = Done v ->
  is_object v = false ->
  lambda_load py_str A = Failed (PythonError AttributeError).
Proof.
  intros HA Hv. unfold lambda_load. rewrite HA.
  destruct v; try reflexivity. discriminate.
Qed.

Lemma non_object_secret_fails_the_load_witness :
  lambda_load (fun _ => EmptyString) store_with_list
  = Failed (PythonError AttributeError).
Proof.
  apply (non_object_secret_fails_the_load (fun _ => EmptyString)
           store_with_list (PList [PInt 1; PInt 2])); reflexivity.
Defined.

(** *** The two variants send the same requests *)

Ltac norm_run :=
  repeat first
    [ rewrite fst_bind
    | rewrite snd_bind
    | rewrite calls_of_app
    | progress cbn [print logging_warning logging_error emit lift ret http
                    fst snd calls_of app]
    | rewrite app_nil_r ].

Lemma lookups_agree (S : services) (email : pyval) (h : list call) :
  fst (Lambda.get_slack_user_id S email h) = fst (Main.get_slack_user_id S email h)
  /\ calls_of (snd (Lambda.get_slack_user_id S email h)) = [SlackLookup email]
  /\ calls_of (snd (Main.get_slack_user_id S email h)) = [SlackLookup email].
Proof.
  unfold Lambda.get_slack_user_id, Main.get_slack_user_id. norm_run.
  unfold response_json.
  destruct (json (slack_lookup_by_email S h email)) as [[| | | | | |d]|];
    norm_run; cbn [py_get]; norm_run; auto.
  destruct (truthy _); norm_run; auto.
Qed.

Lemma updates_agree (S : services) (uid : pyval) (text emoji : string)
    (exp : Z) (h : list call) :
  fst (Lambda.set_user_status S uid text emoji exp h)
  = fst (Main.set_user_status S uid text emoji exp h)
  /\ calls_of (snd (Lambda.set_user_status S uid text emoji exp h))
     = [SlackProfileSet uid text emoji exp]
  /\ calls_of (snd (Main.set_user_status S uid text emoji exp h))
     = [SlackProfileSet uid text emoji exp].
Proof.
  unfold Lambda.set_user_status, Main.set_user_status. norm_run.
  destruct (status_code _ =? 200); unfold response_json;
    destruct (json (slack_profile_set S h uid text emoji exp))
      as [[| | | | | |d]|];
    cbn [obind py_get]; norm_run; auto;
    destruct (truthy _); norm_run; auto.
Qed.

Lemma STATUS_MAP_cases (pol : pyval) :
  in_STATUS_MAP pol = Raise TypeError
  \/ in_STATUS_MAP pol = Ok false
  \/ exists e, in_STATUS_MAP pol = Ok true /\ STATUS_MAP_getitem pol = Ok e.
Proof.
  unfold in_STATUS_MAP, STATUS_MAP_getitem.
  destruct (hashable pol); [|auto]. destruct (status_entry pol); eauto.
Qed.

Lemma records_agree (S : services) (h : list call)
    (ul : Lambda.time_off_record) (um : Main.time_off_record) :
  same_record ul um ->
  fst (Lambda.process_user S ul h) = fst (Main.process_user S um h)
  /\ calls_of (snd (Lambda.process_user S ul h))
     = calls_of (snd (Main.process_user S um h)).
Proof.
  intros (He & Hen & Hp). unfold Lambda.process_user, Main.process_user.
  rewrite He, Hen, Hp. norm_run.
  destruct (expiration_time S (Main.end_ um)) as [z|e]; norm_run; auto.
  destruct (STATUS_MAP_cases (Main.policy_name um))
    as [-> | [-> | (entry & -> & Hget)]]; norm_run; auto.
  rewrite Hget. norm_run.
  destruct (lookups_agree S (Main.email um) h) as (Hf & Hc1 & Hc2).
  rewrite <- Hf.
  destruct (fst (Lambda.get_slack_user_id S (Main.email um) h)) as [uid|e];
    norm_run; rewrite ?Hc1, ?Hc2; auto.
  destruct (truthy uid); norm_run; rewrite ?Hc1, ?Hc2; auto.
  rewrite ?Hget. norm_run. rewrite ?Hc1, ?Hc2.
  destruct (updates_agree S uid (fst entry) (snd entry) z
              (h ++ [SlackLookup (Main.email um)])) as (Hu & Hd1 & Hd2).
  rewrite Hu, Hd1, Hd2. auto.
Qed.

Lemma loops_agree (S : services)
    (ls : list Lambda.time_off_record) (ms : list Main.time_off_record) :
  Forall2 same_record ls ms ->
  forall h,
    fst (for_each (Lambda.process_user S) ls h)
    = fst (for_each (Main.process_user S) ms h)
    /\ calls_of (snd (for_each (Lambda.process_user S) ls h))
       = calls_of (snd (for_each (Main.process_user S) ms h)).
Proof.
  induction 1 as [|ul um ls ms Hu Hl IH]; intros h; [auto|].
  cbn [for_each]. norm_run.
  destruct (records_agree S h ul um Hu) as (Hf & Hc).
  rewrite <- Hf.
  destruct (fst (Lambda.process_user S ul h)); norm_run; rewrite <- Hc;
    [|auto].
  destruct (IH (h ++ calls_of (snd (Lambda.process_user S ul h)))) as (-> & ->).
  auto.
Qed.

Lemma lambda_run_calls (S : services) (h : list call) :
  calls_of (snd (Lambda.update_slack_status_for_time_off_users S h))
  = ClockifyPost (time_off_payload S)
    :: match fst (Lambda.get_time_off_requests S h) with
       | Ok recs =>
           calls_of (snd (for_each (Lambda.process_user S) recs
                            (h ++ [ClockifyPost (time_off_payload S)])))
       | Raise _ => []
       end.
Proof.
  unfold Lambda.update_slack_status_for_time_off_users. norm_run.
  rewrite (lambda_fetch_calls S h).
  destruct (fst (Lambda.get_time_off_requests S h)); norm_run;
    rewrite ?(lambda_fetch_calls S h); reflexivity.
Qed.

Lemma main_run_calls (S : services) (h : list call) :
  calls_of (snd (Main.update_slack_status_for_time_off_users S h))
  = ClockifyPost (time_off_payload S)
    :: match fst (Main.get_time_off_requests S h) with
       | Ok recs =>
           calls_of (snd (for_each (Main.process_user S) recs
                            (h ++ [ClockifyPost (time_off_payload S)])))
       | Raise _ => []
       end.
Proof.
  unfold Main.update_slack_status_for_time_off_users. norm_run.
  destruct (fst (Main.get_time_off_requests S h)) as [[|u recs]|e]; norm_run;
    rewrite ?(main_fetch_calls S h); reflexivity.
Qed.

Lemma forallb_false_ex {A : Type} (p : A -> bool) (l : list A) :
  forallb p l = false -> exists a, In a l /\ p a = false.
Proof.
  induction l as [|a l IH]; cbn; [discriminate|].
  destruct (p a) eqn:Ha; cbn.
  - intros H. destruct (IH H) as (x & Hx & Hp). eauto.
  - eauto.
Qed.

Lemma Forall2_same_record (reqs : list pyval) :
  Forall2 same_record (map lambda_record_of reqs) (map main_record_of reqs).
Proof.
  induction reqs; cbn; constructor; [repeat split | assumption].
Qed.

Ltac nothing_to_process :=
  right; split; first [left; reflexivity | right; eexists; reflexivity].

(** What the two fetches return on the same answer: the same records, or
    nothing to process on either side. *)
Lemma fetches_agree (S : services) (h : list call) :
  (forall d reqs,
      json (clockify_time_off S h (time_off_payload S)) = Some (PDict d) ->
      dict_get d "requests" = Some (PList reqs) ->
      forallb status_object reqs = true) ->
  (exists ls ms,
      fst (Lambda.get_time_off_requests S h) = Ok ls
      /\ fst (Main.get_time_off_requests S h) = Ok ms
      /\ Forall2 same_record ls ms)
  \/ ((fst (Lambda.get_time_off_requests S h) = Ok []
       \/ exists e, fst (Lambda.get_time_off_requests S h) = Raise e)
      /\ (fst (Main.get_time_off_requests S h) = Ok []
          \/ exists e, fst (Main.get_time_off_requests S h) = Raise e)).
Proof.
  intros Hst.
  unfold Lambda.get_time_off_requests, Main.get_time_off_requests. norm_run.
  destruct (status_code _ =? 200); norm_run; [|right; auto].
  unfold response_json.
  destruct (json (clockify_time_off S h (time_off_payload S)))
    as [[| | | | | |d]|] eqn:Hj; norm_run; cbn [py_get obind]; norm_run;
    try (right; split; right; eexists; reflexivity).
  specialize (Hst d).
  destruct (dict_get d "requests") as [[|b|z|m e|s|reqs|dd]|];
    cbn [py_iter obind comprehension]; norm_run.
  - cbn [truthy negb]. norm_run. nothing_to_process.
  - destruct b; cbn [truthy negb]; norm_run; nothing_to_process.
  - cbn [truthy]. destruct (z =? 0); cbn [negb]; norm_run; nothing_to_process.
  - cbn [truthy]. destruct (m =? 0); cbn [negb]; norm_run; nothing_to_process.
  - (* a string: its characters are strings *)
    destruct s as [|c s]; cbn; norm_run; nothing_to_process.
  - (* a list *)
    specialize (Hst reqs eq_refl eq_refl).
    destruct reqs as [|r0 reqs]; cbn [truthy negb]; norm_run;
      [nothing_to_process|].
    destruct (forallb request_object (r0 :: reqs)) eqn:Ho.
    + left. exists (map lambda_record_of (r0 :: reqs)),
               (map main_record_of (r0 :: reqs)).
      rewrite (comprehension_map _ _ _ _ lambda_normalize_request
                 (forallb_Forall _ _ Ho)).
      rewrite (comprehension_map Main.normalize main_record_of
                 (fun r => request_object r = true /\ status_object r = true)).
      * split; [reflexivity|]. split; [reflexivity|].
        apply Forall2_same_record.
      * intros a [Ha Hb]. apply main_normalize_request; assumption.
      * rewrite Forall_forall. rewrite forallb_forall in Ho, Hst. auto.
    + destruct (forallb_false_ex _ _ Ho) as (req & Hin & Hreq).
      rewrite (comprehension_raises Lambda.normalize AttributeError _ req
                 AttributeError lambda_normalize_raises Hin
                 (lambda_normalize_not_object req Hreq)).
      rewrite (comprehension_raises Main.normalize AttributeError _ req
                 AttributeError main_normalize_raises Hin
                 (main_normalize_not_object req Hreq)).
      nothing_to_process.
  - (* an object: its keys are strings *)
    destruct dd as [|[k v] dd]; cbn; norm_run; nothing_to_process.
  - (* no [requests] at all *)
    cbn [truthy negb]. norm_run. nothing_to_process.
Qed.

(** Given the same answers, the two variants send the same requests, in the
    same order and with the same arguments: the time-off query, then the
    same lookups and updates.  The only proviso is that the [status] of the
    requests, which the standalone variant alone reads, is an object (or
    missing). *)
Theorem both_variants_send_the_same_requests (S : services) (h : list call) :
  (forall d reqs,
      json (clockify_time_off S h (time_off_payload S)) = Some (PDict d) ->
      dict_get d "requests" = Some (PList reqs) ->
      forallb status_object reqs = true) ->
  calls_of (snd (Lambda.update_slack_status_for_time_off_users S h))
  = calls_of (snd (Main.update_slack_status_for_time_off_users S h)).
Proof.
  intros Hst. rewrite lambda_run_calls, main_run_calls. f_equal.
  destruct (fetches_agree S h Hst)
    as [(ls & ms & -> & -> & Hrec) | [[-> | [e ->]] [-> | [e' ->]]]];
    try reflexivity.
  apply (loops_agree S ls ms Hrec).
Qed.

Lemma both_variants_send_the_same_requests_witness :
  calls_of (snd (Lambda.update_slack_status_for_time_off_users
                   unknown_then_vacation []))
  = calls_of (snd (Main.update_slack_status_for_time_off_users
                     unknown_then_vacation [])).
Proof.
  apply (both_variants_send_the_same_requests unknown_then_vacation []).
  intros d reqs Hj Hr. injection Hj as <-. injection Hr as <-. reflexivity.
Defined.

(** *** After the lookup *)

Lemma resolved_lookup_runs (S : services) (h : list call) (email uid : pyval) :
  resolved_id (slack_lookup_by_email S h email) = Some uid ->
  truthy uid = true
  /\ Lambda.get_slack_user_id S email h
     = (Ok uid, [Print (MsgLookingUp email); Http (SlackLookup email)])
  /\ Main.get_slack_user_id S email h = (Ok uid, [Http (SlackLookup email)]).
Proof.
  unfold resolved_id, Lambda.get_slack_user_id, Main.get_slack_user_id. run_m.
  destruct (json (slack_lookup_by_email S h email)) as [[| | | | | |d]|];
    try discriminate. cbn.
  destruct (dict_get d "ok") as [ok|]; [|discriminate]. cbn.
  destruct (truthy ok); [|discriminate]. cbn.
  destruct (dict_get d "user") as [[| | | | | |ud]|]; try discriminate. cbn.
  destruct (dict_get ud "id") as [x|]; [|discriminate].
  destruct (truthy x) eqn:Hx; [|discriminate].
  intros E. injection E as <-. auto.
Qed.

Lemma lambda_resolved_record_runs
    (S : services) (h : list call) (em nm st en pol uid : pyval)
    (text emoji : string) (exp : Z) :
  expiration_time S en = Ok exp ->
  status_entry pol = Some (text, emoji) ->
  resolved_id (slack_lookup_by_email S h em) = Some uid ->
  Lambda.process_user S (Lambda.mkRecord em nm st en pol) h
  = (fst (Lambda.set_user_status S uid text emoji exp (h ++ [SlackLookup em])),
     [Print (MsgProcessing em pol); Print (MsgLookingUp em);
      Http (SlackLookup em); Print (MsgSlackUserId em uid)]
     ++ snd (Lambda.set_user_status S uid text emoji exp
               (h ++ [SlackLookup em]))).
Proof.
  intros Hexp Hpol Hres.
  destruct (resolved_lookup_runs S h em uid Hres) as (Hu & HlL & _).
  destruct (known_policy_in_table pol ltac:(congruence)) as (e & Hin & Hget).
  assert (e = (text, emoji)) as ->.
  { apply STATUS_MAP_getitem_inv in Hget. congruence. }
  unfold Lambda.process_user.
  cbn [Lambda.email Lambda.end_ Lambda.policy_name].
  rewrite Hexp, Hin.
  rewrite (bind_ok _ _ h tt [Print (MsgProcessing em pol)] eq_refl).
  cbn [fst snd calls_of app]. rewrite app_nil_r.
  rewrite (bind_ok _ _ h exp [] eq_refl).
  cbn [fst snd calls_of app]. rewrite app_nil_r.
  rewrite (bind_ok _ _ h true [] eq_refl).
  cbn [fst snd calls_of app]. rewrite app_nil_r.
  rewrite (bind_ok _ _ h uid _ HlL).
  cbn [fst snd calls_of app].
  rewrite (bind_ok _ _ _ tt [Print (MsgSlackUserId em uid)] eq_refl).
  cbn [fst snd calls_of app]. rewrite app_nil_r, Hu, Hget.
  rewrite (bind_ok _ _ _ (text, emoji) [] eq_refl).
  cbn [fst snd calls_of app]. rewrite app_nil_r. reflexivity.
Qed.

Lemma main_resolved_record_runs
    (S : services) (h : list call) (em nm st en sty pol uid : pyval)
    (text emoji : string) (exp : Z) :
  expiration_time S en = Ok exp ->
  status_entry pol = Some (text, emoji) ->
  resolved_id (slack_lookup_by_email S h em) = Some uid ->
  Main.process_user S (Main.mkRecord em nm st en sty pol) h
  = (fst (Main.set_user_status S uid text emoji exp (h ++ [SlackLookup em])),
     Http (SlackLookup em)
     :: snd (Main.set_user_status S uid text emoji exp (h ++ [SlackLookup em]))).
Proof.
  intros Hexp Hpol Hres.
  destruct (resolved_lookup_runs S h em uid Hres) as (Hu & _ & HlM).
  destruct (known_policy_in_table pol ltac:(congruence)) as (e & Hin & Hget).
  assert (e = (text, emoji)) as ->.
  { apply STATUS_MAP_getitem_inv in Hget. congruence. }
  unfold Main.process_user.
  cbn [Main.email Main.end_ Main.policy_name].
  rewrite Hexp, Hin, Hget.
  rewrite (bind_ok _ _ h exp [] eq_refl).
  cbn [fst snd calls_of app]. rewrite app_nil_r.
  rewrite (bind_ok _ _ h true [] eq_refl).
  cbn [fst snd calls_of app]. rewrite app_nil_r.
  rewrite (bind_ok _ _ h (text, emoji) [] eq_refl).
  cbn [fst snd calls_of app]. rewrite app_nil_r.
  rewrite (bind_ok _ _ h uid _ HlM).
  cbn [fst snd calls_of app]. rewrite Hu. reflexivity.
Qed.

(** An update that the chat service refuses (a JSON object without a true
    [ok], or a status other than 200) is reported and nothing more: the
    record's processing returns, and the loop goes on with the records after
    it. *)
Theorem refused_update_does_not_stop_the_loop
    (S : services) (h : list call) (em nm st en sty pol uid : pyval)
    (text emoji : string) (exp : Z) (d : list (string * pyval))
    (rest_l : list Lambda.time_off_record) (rest_m : list Main.time_off_record) :
  expiration_time S en = Ok exp ->
  status_entry pol = Some (text, emoji) ->
  resolved_id (slack_lookup_by_email S h em) = Some uid ->
  json (slack_profile_set S (h ++ [SlackLookup em]) uid text emoji exp)
  = Some (PDict d) ->
  (status_code (slack_profile_set S (h ++ [SlackLookup em]) uid text emoji exp)
     =? 200)
  && truthy (or_default (dict_get d "ok") PNone) = false ->
  let after := h ++ [SlackLookup em; SlackProfileSet uid text emoji exp] in
  Lambda.process_user S (Lambda.mkRecord em nm st en pol) h
  = (Ok tt,
     [Print (MsgProcessing em pol); Print (MsgLookingUp em);
      Http (SlackLookup em); Print (MsgSlackUserId em uid);
      Print (MsgUpdating uid text emoji exp);
      Http (SlackProfileSet uid text emoji exp);
      Logging ERROR (MsgFailedToUpdate uid (PDict d))])
  /\ Main.process_user S (Main.mkRecord em nm st en sty pol) h
     = (Ok tt,
        [Http (SlackLookup em); Http (SlackProfileSet uid text emoji exp);
         Print (MsgFailedToUpdate uid (PDict d))])
  /\ fst (for_each (Lambda.process_user S)
                   (Lambda.mkRecord em nm st en pol :: rest_l) h)
     = fst (for_each (Lambda.process_user S) rest_l after)
  /\ fst (for_each (Main.process_user S)
                   (Main.mkRecord em nm st en sty pol :: rest_m) h)
     = fst (for_each (Main.process_user S) rest_m after).
Proof.
  intros Hexp Hpol Hres Hj Hok after.
  pose proof (lambda_set_user_status_on_json S uid text emoji exp
                (h ++ [SlackLookup em]) d Hj) as HsL.
  pose proof (main_set_user_status_on_json S uid text emoji exp
                (h ++ [SlackLookup em]) d Hj) as HsM.
  rewrite Hok in HsL, HsM.
  pose proof (lambda_resolved_record_runs S h em nm st en pol uid text emoji
                exp Hexp Hpol Hres) as HL.
  pose proof (main_resolved_record_runs S h em nm st en sty pol uid text emoji
                exp Hexp Hpol Hres) as HM.
  rewrite HsL in HL. rewrite HsM in HM. cbn [fst snd app] in HL, HM.
  split; [exact HL|]. split; [exact HM|]. split.
  - rewrite (for_each_continues _ _ rest_l _ _ HL). reflexivity.
  - rewrite (for_each_continues _ _ rest_m _ _ HM). reflexivity.
Qed.

Lemma refused_update_does_not_stop_the_loop_witness :
  Main.process_user
    (const_services bad_gateway lookup_found update_refused)
    (Main.mkRecord (PStr "a@x.com") (PStr "N") PNone end_of_day PNone
                   (PStr "Sick")) []
  = (Ok tt,
     [Http (SlackLookup (PStr "a@x.com"));
      Http (SlackProfileSet (PStr "U1") "Off Sick" ":face_with_thermometer:"
                            1748908799);
      Print (MsgFailedToUpdate (PStr "U1")
               (PDict [("ok", PBool false); ("error", PStr "invalid_auth")]))]).
Proof.
  apply (refused_update_does_not_stop_the_loop
           (const_services bad_gateway lookup_found update_refused) []
           (PStr "a@x.com") (PStr "N") PNone end_of_day PNone (PStr "Sick")
           (PStr "U1") "Off Sick" ":face_with_thermometer:" 1748908799
           [("ok", PBool false); ("error", PStr "invalid_auth")] [] []);
    vm_compute; reflexivity.
Defined.

(** An update that is answered with a body that is not JSON is not reported:
    the exception leaves the loop, and the records after it get neither a
    lookup nor an update. *)
Theorem non_json_update_answer_stops_the_loop
    (S : services) (h : list call) (em nm st en sty pol uid : pyval)
    (text emoji : string) (exp : Z)
    (rest_l : list Lambda.time_off_record) (rest_m : list Main.time_off_record) :
  expiration_time S en = Ok exp ->
  status_entry pol = Some (text, emoji) ->
  resolved_id (slack_lookup_by_email S h em) = Some uid ->
  json (slack_profile_set S (h ++ [SlackLookup em]) uid text emoji exp) = None ->
  for_each (Lambda.process_user S) (Lambda.mkRecord em nm st en pol :: rest_l) h
  = (Raise JSONDecodeError,
     [Print (MsgProcessing em pol); Print (MsgLookingUp em);
      Http (SlackLookup em); Print (MsgSlackUserId em uid);
      Print (MsgUpdating uid text emoji exp);
      Http (SlackProfileSet uid text emoji exp)])
  /\ for_each (Main.process_user S)
              (Main.mkRecord em nm st en sty pol :: rest_m) h
     = (Raise JSONDecodeError,
        [Http (SlackLookup em); Http (SlackProfileSet uid text emoji exp)]).
Proof.
  intros Hexp Hpol Hres Hj.
  pose proof (lambda_set_user_status_on_non_json S uid text emoji exp
                (h ++ [SlackLookup em]) Hj) as HsL.
  pose proof (main_set_user_status_on_non_json S uid text emoji exp
                (h ++ [SlackLookup em]) Hj) as HsM.
  pose proof (lambda_resolved_record_runs S h em nm st en pol uid text emoji
                exp Hexp Hpol Hres) as HL.
  pose proof (main_resolved_record_runs S h em nm st en sty pol uid text emoji
                exp Hexp Hpol Hres) as HM.
  rewrite HsL in HL. rewrite HsM in HM. cbn [fst snd app] in HL, HM.
  split; apply for_each_stops; assumption.
Qed.

Lemma non_json_update_answer_stops_the_loop_witness :
  for_each (Main.process_user (const_services bad_gateway lookup_found bad_gateway))
    [Main.mkRecord (PStr "a@x.com") (PStr "N") PNone end_of_day PNone
                   (PStr "Sick");
     Main.mkRecord (PStr "b@x.com") (PStr "N") PNone end_of_day PNone
                   (PStr "Vacations")] []
  = (Raise JSONDecodeError,
     [Http (SlackLookup (PStr "a@x.com"));
      Http (SlackProfileSet (PStr "U1") "Off Sick" ":face_with_thermometer:"
                            1748908799)]).
Proof.
  apply (non_json_update_answer_stops_the_loop
           (const_services bad_gateway lookup_found bad_gateway) []
           (PStr "a@x.com") (PStr "N") PNone end_of_day PNone (PStr "Sick")
           (PStr "U1") "Off Sick" ":face_with_thermometer:" 1748908799 []);
    vm_compute; reflexivity.
Defined.

(** A lookup that says [ok] but returns an empty id (or any false value) is
    taken as "not found": no update is sent and the loop goes on.  The
    scheduled variant records the skip with a warning; the standalone
    variant prints nothing at all for the record. *)
Theorem empty_user_id_is_skipped
    (S : services) (h : list call) (em nm st en sty pol uid : pyval)
    (d ud : list (string * pyval)) (ok : pyval) (exp : Z) :
  expiration_time S en = Ok exp ->
  status_entry pol <> None ->
  json (slack_lookup_by_email S h em) = Some (PDict d) ->
  dict_get d "ok" = Some ok -> truthy ok = true ->
  dict_get d "user" = Some (PDict ud) ->
  dict_get ud "id" = Some uid -> truthy uid = false ->
  Lambda.process_user S (Lambda.mkRecord em nm st en pol) h
  = (Ok tt,
     [Print (MsgProcessing em pol); Print (MsgLookingUp em);
      Http (SlackLookup em); Print (MsgSlackUserId em uid);
      Logging WARNING (MsgSkipping em)])
  /\ Main.process_user S (Main.mkRecord em nm st en sty pol) h
     = (Ok tt, [Http (SlackLookup em)]).
Proof.
  intros Hexp Hpol Hj Hok Ht Hu Hid Hf.
  destruct (known_policy_in_table pol Hpol) as (e & Hin & Hget).
  split.
  - unfold Lambda.process_user, Lambda.get_slack_user_id.
    cbn [Lambda.email Lambda.end_ Lambda.policy_name].
    rewrite Hexp, Hin. run_m. rewrite Hj. cbn. rewrite Hok. cbn.
    rewrite Ht. cbn. rewrite Hu. cbn. rewrite Hid. cbn. rewrite Hf.
    reflexivity.
  - unfold Main.process_user, Main.get_slack_user_id.
    cbn [Main.email Main.end_ Main.policy_name].
    rewrite Hexp, Hin, Hget. run_m. rewrite Hj. cbn. rewrite Hok. cbn.
    rewrite Ht. cbn. rewrite Hu. cbn. rewrite Hid. cbn. rewrite Hf.
    reflexivity.
Qed.

Lemma empty_user_id_is_skipped_witness :
  Main.process_user (const_services bad_gateway lookup_empty_id update_ok)
    (Main.mkRecord (PStr "a@x.com") (PStr "N") PNone end_of_day PNone
                   (PStr "Sick")) []
  = (Ok tt, [Http (SlackLookup (PStr "a@x.com"))]).
Proof.
  apply (empty_user_id_is_skipped
           (const_services bad_gateway lookup_empty_id update_ok) []
           (PStr "a@x.com") (PStr "N") PNone end_of_day PNone (PStr "Sick")
           (PStr "")
           [("ok", PBool true); ("user", PDict [("id", PStr "")])]
           [("id", PStr "")] (PBool true) 1748908799);
    try (vm_compute; reflexivity).
  vm_compute. discriminate.
Defined.

(** *** Every fetched record, processed by the run *)



